(** * regobslib.aps: the APS weather model, its merge and its tabular export

    A shallow embedding of [src/regobslib/aps.py].  Python classes become
    records, methods become functions named [Class_method], exceptions are
    returned through the [result] monad, and Python truth values
    ([bool(x)], [x and y], [x or y]) are written out for every type they are
    taken of. *)

From stdpp Require Import base option list strings gmap pretty.

Open Scope Z_scope.

(** ** Exceptions and the error monad *)

(** The exceptions the module can raise.  Every [raise] of aps.py is a
    [ValueError] with a message; the others come from the interpreter
    (a missing dict key, a bad index, an exhausted iterator, an operation on
    [None]). *)
Inductive Exception : Type :=
| ValueError (msg : string)
| KeyError (key : string)
| IndexError
| TypeError
| StopIteration.

Inductive result (A : Type) : Type :=
| Ok (a : A)
| Raise (e : Exception).
Arguments Ok {A} a.
Arguments Raise {A} e.

#[global] Instance result_ret : MRet result := λ A a, Ok a.
#[global] Instance result_bind : MBind result := λ A B f r,
  match r with
  | Ok a => f a
  | Raise e => Raise e
  end.

(** [for x in xs: acc = body(acc, x)], stopping at the first exception. *)
Fixpoint for_each {A S : Type} (body : S → A → result S) (xs : list A) (acc : S)
  : result S :=
  match xs with
  | [] => Ok acc
  | x :: xs' => acc' ← body acc x; for_each body xs' acc'
  end.

(** The error kinds of the specification, as predicates on what aps.py raises. *)
Definition IncompatibleMerge (e : Exception) : Prop :=
  e = ValueError "Incompatible days".
Definition ConflictingData (e : Exception) : Prop :=
  ∃ attr : string, e = ValueError ("Both levels have valid " +:+ attr +:+ " data").
Definition InvalidArgument (e : Exception) : Prop :=
  e = ValueError "Only one of elevation and level_index parameters can be defined".
Definition EmptyContainerError (e : Exception) : Prop :=
  e = ValueError "No days to find region from".

(** ** Python integers that may be [None] *)

(** [bool(x)] for [x : Optional[int]]: [None] and [0] are false. *)
Definition int_bool (x : option Z) : bool :=
  match x with
  | Some n => negb (n =? 0)
  | None => false
  end.

(** [x and y], [x or y] on values (not on their truth values). *)
Definition int_and (x y : option Z) : option Z := if int_bool x then y else x.
Definition int_or (x y : option Z) : option Z := if int_bool x then x else y.

(** [max(x, y)]: comparing with [None] is a [TypeError]. *)
Definition int_max (x y : option Z) : result (option Z) :=
  match x, y with
  | Some a, Some b => Ok (Some (Z.max a b))
  | _, _ => Raise TypeError
  end.

(** [len(xs)] and [xs[i]] with Python's negative indices. *)
Definition len {A : Type} (xs : list A) : Z := Z.of_nat (length xs).

Definition getitem {A : Type} (xs : list A) (i : Z) : result A :=
  let j := if i <? 0 then i + len xs else i in
  if j <? 0 then Raise IndexError
  else match xs !! Z.to_nat j with
       | Some x => Ok x
       | None => Raise IndexError
       end.

(** [range(n)] *)
Definition range (n : Z) : list Z := Z.of_nat <$> seq 0 (Z.to_nat n).

(** ** Dictionaries in insertion order *)

(** A Python [dict] (or [OrderedDict]) whose order matters: an association
    list with one entry per key.  [d[k] = v] replaces the value of a key in
    place and appends a new key at the end. *)
Section OrderedDict.
Context {K V : Type} `{EqDecision K}.

Fixpoint od_get (d : list (K * V)) (k : K) : option V :=
  match d with
  | [] => None
  | (k', v) :: d' => if decide (k' = k) then Some v else od_get d' k
  end.

Fixpoint od_set (d : list (K * V)) (k : K) (v : V) : list (K * V) :=
  match d with
  | [] => [(k, v)]
  | (k', v') :: d' =>
      if decide (k' = k) then (k', v) :: d' else (k', v') :: od_set d' k v
  end.

(** [{key: value for key, value in items}] *)
Definition od_of_items (items : list (K * V)) : list (K * V) :=
  foldl (λ d kv, od_set d kv.1 kv.2) [] items.
End OrderedDict.

(** ** Data: seven percentiles of one weather parameter *)

(** The subclasses of [Data]. *)
Inductive DataType : Type :=
| Precip | PrecipMax | Temp | Wind | SnowDepth | NewSnow | NewSnowMax.

#[global] Instance DataType_eq_dec : EqDecision DataType.
Proof. solve_decision. Defined.

Definition WEATHER_PARAM (cls : DataType) : Z :=
  match cls with
  | Precip => 0
  | PrecipMax => 100
  | Temp => 17
  | Wind => 18
  | SnowDepth => 2002
  | NewSnow => 2013
  | NewSnowMax => 2113
  end.

(** The attribute names of [Level] that hold a [Data]. *)
Inductive Attr : Type :=
| precip_ | precip_max_ | temp_ | wind_ | snow_depth_ | new_snow_ | new_snow_max_.

#[global] Instance Attr_eq_dec : EqDecision Attr.
Proof. solve_decision. Defined.

Definition attr_name (a : Attr) : string :=
  match a with
  | precip_ => "precip"
  | precip_max_ => "precip_max"
  | temp_ => "temp"
  | wind_ => "wind"
  | snow_depth_ => "snow_depth"
  | new_snow_ => "new_snow"
  | new_snow_max_ => "new_snow_max"
  end.

(** [WEATHER_ATTRS], a dict in insertion order. *)
Definition WEATHER_ATTRS : list (DataType * Attr) :=
  [ (Precip, precip_); (PrecipMax, precip_max_); (Temp, temp_); (Wind, wind_);
    (SnowDepth, snow_depth_); (NewSnow, new_snow_); (NewSnowMax, new_snow_max_) ].

Definition WEATHER_ATTRS_values : list Attr := snd <$> WEATHER_ATTRS.

Definition WEATHER_ATTRS_get (cls : DataType) : option Attr :=
  od_get WEATHER_ATTRS cls.

(** An instance of a subclass of [Data]: its class and its seven fields. *)
Record Data : Type := mkData {
  data_class : DataType;
  perc00 : option Z;
  perc05 : option Z;
  perc25 : option Z;
  perc50 : option Z;
  perc75 : option Z;
  perc95 : option Z;
  perc100 : option Z;
}.

(** [cls()] *)
Definition Data_init (cls : DataType) : Data :=
  mkData cls None None None None None None None.

(** Attribute assignments [data.percNN = v]. *)
Definition set_perc00 (d : Data) (v : option Z) : Data :=
  mkData (data_class d) v (perc05 d) (perc25 d) (perc50 d) (perc75 d) (perc95 d) (perc100 d).
Definition set_perc05 (d : Data) (v : option Z) : Data :=
  mkData (data_class d) (perc00 d) v (perc25 d) (perc50 d) (perc75 d) (perc95 d) (perc100 d).
Definition set_perc25 (d : Data) (v : option Z) : Data :=
  mkData (data_class d) (perc00 d) (perc05 d) v (perc50 d) (perc75 d) (perc95 d) (perc100 d).
Definition set_perc50 (d : Data) (v : option Z) : Data :=
  mkData (data_class d) (perc00 d) (perc05 d) (perc25 d) v (perc75 d) (perc95 d) (perc100 d).
Definition set_perc75 (d : Data) (v : option Z) : Data :=
  mkData (data_class d) (perc00 d) (perc05 d) (perc25 d) (perc50 d) v (perc95 d) (perc100 d).
Definition set_perc95 (d : Data) (v : option Z) : Data :=
  mkData (data_class d) (perc00 d) (perc05 d) (perc25 d) (perc50 d) (perc75 d) v (perc100 d).
Definition set_perc100 (d : Data) (v : option Z) : Data :=
  mkData (data_class d) (perc00 d) (perc05 d) (perc25 d) (perc50 d) (perc75 d) (perc95 d) v.

(** [Data.to_dict] *)
Definition Data_to_dict (self : Data) : list (Z * option Z) :=
  [ (0, perc00 self); (5, perc05 self); (25, perc25 self); (50, perc50 self);
    (75, perc75 self); (95, perc95 self); (100, perc100 self) ].

(** ApsJsonData = Dict[str, Union[int, float]]: one elevation band of the
    payload.  The numbers are stored and compared, never computed with; the
    model takes them in Z. *)
Abbreviation ApsJsonData := (gmap string Z).

(** [json[key]] on a dict. *)
Definition dict_getitem {V : Type} (json : gmap string V) (key : string) : result V :=
  match json !! key with
  | Some v => Ok v
  | None => Raise (KeyError key)
  end.

(** [Data.deserialize] *)
Definition Data_deserialize (cls : DataType) (json : ApsJsonData) : result Data :=
  let data := Data_init cls in
  v ← dict_getitem json "Minimum";       let data := set_perc00 data (Some v) in
  v ← dict_getitem json "Perc05";        let data := set_perc05 data (Some v) in
  v ← dict_getitem json "FirstQuartile"; let data := set_perc25 data (Some v) in
  v ← dict_getitem json "Median";        let data := set_perc50 data (Some v) in
  v ← dict_getitem json "ThirdQuartile"; let data := set_perc75 data (Some v) in
  v ← dict_getitem json "Perc05";        let data := set_perc95 data (Some v) in
  v ← dict_getitem json "Maximum";       let data := set_perc100 data (Some v) in
  Ok data.

(** The truth value of a Python object whose class defines neither
    [__bool__] nor [__len__]. *)
Definition object_bool {A : Type} (_ : A) : bool := true.

(** ** Dates and regions *)

(** [datetime.date] *)
Record dt_date : Type := mkdate { year : Z; month : Z; day_of_month : Z }.

#[global] Instance dt_date_eq_dec : EqDecision dt_date.
Proof. solve_decision. Defined.

(** Modelled from the spec: [SnowRegion] (region.py), the region identifier
    that a numeric region id resolves to. *)
Record SnowRegion : Type := mkSnowRegion { region_id : Z }.

#[global] Instance SnowRegion_eq_dec : EqDecision SnowRegion.
Proof. solve_decision. Defined.

(** ** Level: one elevation band *)

Record Level : Type := mkLevel {
  floor : option Z;
  roof : option Z;
  index : option Z;
  precip : option Data;
  precip_max : option Data;
  temp : option Data;
  wind : option Data;
  snow_depth : option Data;
  new_snow : option Data;
  new_snow_max : option Data;
}.

(** [Level()]: the class attributes are [None] and [__init__] sets every
    weather attribute to [None]. *)
Definition Level_init : Level :=
  mkLevel None None None None None None None None None None.

Definition set_floor (l : Level) (v : option Z) : Level :=
  mkLevel v (roof l) (index l) (precip l) (precip_max l) (temp l) (wind l)
          (snow_depth l) (new_snow l) (new_snow_max l).
Definition set_roof (l : Level) (v : option Z) : Level :=
  mkLevel (floor l) v (index l) (precip l) (precip_max l) (temp l) (wind l)
          (snow_depth l) (new_snow l) (new_snow_max l).
Definition set_index (l : Level) (v : option Z) : Level :=
  mkLevel (floor l) (roof l) v (precip l) (precip_max l) (temp l) (wind l)
          (snow_depth l) (new_snow l) (new_snow_max l).

(** [getattr(level, attr)] and [setattr(level, attr, v)] for the weather
    attributes. *)
Definition getattr (l : Level) (a : Attr) : option Data :=
  match a with
  | precip_ => precip l
  | precip_max_ => precip_max l
  | temp_ => temp l
  | wind_ => wind l
  | snow_depth_ => snow_depth l
  | new_snow_ => new_snow l
  | new_snow_max_ => new_snow_max l
  end.

Definition setattr (l : Level) (a : Attr) (v : option Data) : Level :=
  match a with
  | precip_ =>
      mkLevel (floor l) (roof l) (index l) v (precip_max l) (temp l) (wind l)
              (snow_depth l) (new_snow l) (new_snow_max l)
  | precip_max_ =>
      mkLevel (floor l) (roof l) (index l) (precip l) v (temp l) (wind l)
              (snow_depth l) (new_snow l) (new_snow_max l)
  | temp_ =>
      mkLevel (floor l) (roof l) (index l) (precip l) (precip_max l) v (wind l)
              (snow_depth l) (new_snow l) (new_snow_max l)
  | wind_ =>
      mkLevel (floor l) (roof l) (index l) (precip l) (precip_max l) (temp l) v
              (snow_depth l) (new_snow l) (new_snow_max l)
  | snow_depth_ =>
      mkLevel (floor l) (roof l) (index l) (precip l) (precip_max l) (temp l) (wind l)
              v (new_snow l) (new_snow_max l)
  | new_snow_ =>
      mkLevel (floor l) (roof l) (index l) (precip l) (precip_max l) (temp l) (wind l)
              (snow_depth l) v (new_snow_max l)
  | new_snow_max_ =>
      mkLevel (floor l) (roof l) (index l) (precip l) (precip_max l) (temp l) (wind l)
              (snow_depth l) (new_snow l) v
  end.

(** [str(x)] for [x : Optional[int]] *)
Definition int_str (x : option Z) : string :=
  match x with
  | Some n => pretty n
  | None => "None"
  end.

(** [Level.get_name] *)
Definition Level_get_name (self : Level) : string :=
  int_str (floor self) +:+ (if int_bool (roof self) then "-" +:+ int_str (roof self) else "").

(** [max_or_not_none], the local function of [Level.assimilate] *)
Definition max_or_not_none (self_ other_ : option Z) : result (option Z) :=
  if int_bool (int_and self_ other_) then int_max self_ other_
  else Ok (int_or self_ other_).

(** [x <= y] and [x < y] on integers that may be [None]. *)
Definition int_le (x y : option Z) : result bool :=
  match x, y with
  | Some a, Some b => Ok (a <=? b)
  | _, _ => Raise TypeError
  end.
Definition int_lt (x y : option Z) : result bool :=
  match x, y with
  | Some a, Some b => Ok (a <? b)
  | _, _ => Raise TypeError
  end.

(** The filter of the two [to_frame] comprehensions:
    [elevation is None and level_index is None
       or elevation and lvl.floor <= elevation
                    and (not lvl.roof or elevation < lvl.roof)
       or lvl.index == level_index],
    evaluated left to right with Python's short circuits.
    [elevation_matches] is the truth value of the middle operand. *)
Definition elevation_matches (elevation : option Z) (lvl : Level) : result bool :=
  if int_bool elevation then
    above ← int_le (floor lvl) elevation;
    if above : bool then
      if negb (int_bool (roof lvl)) then Ok true
      else int_lt elevation (roof lvl)
    else Ok false
  else Ok false.

Definition level_selected (elevation level_index : option Z) (lvl : Level)
  : result bool :=
  if bool_decide (elevation = None) && bool_decide (level_index = None) then Ok true
  else
    in_range ← elevation_matches elevation lvl;
    if in_range : bool then Ok true
    else Ok (bool_decide (index lvl = level_index)).

(** ** Containers *)

(** Modelled from the spec: [Container] (misc.py), the base class of
    [Timeline] and [Aps]: a container backed by an insertion-ordered mapping
    [_elems]; [set(key, element)] inserts or replaces, and iteration produces
    the elements in current insertion order. *)
Abbreviation Container K V := (list (K * V)).

Definition Container_init {K V : Type} : Container K V := [].

Definition Container_setitem {K V : Type} `{EqDecision K}
  (self : Container K V) (key : K) (elem : V) : Container K V :=
  od_set self key elem.

Definition Container_iter {K V : Type} (self : Container K V) : list V :=
  snd <$> self.

(** The two truth values a container backed by a mapping can have in Python:
    that of its length, or that of [any] of its elements. *)
Definition Container_bool_len {K V : Type} (self : Container K V) : bool :=
  negb (bool_decide (length self = 0%nat)).

Definition Container_bool_any {K V : Type} (elem_bool : V → bool)
  (self : Container K V) : bool :=
  existsb elem_bool (Container_iter self).

(** [next(iter(xs))] *)
Definition next_iter {A : Type} (xs : list A) : result A :=
  match xs with
  | x :: _ => Ok x
  | [] => Raise StopIteration
  end.

(** ** Day, Timeline and Aps *)

Record Day : Type := mkDay {
  date : option dt_date;
  region : option SnowRegion;
  levels : list Level;
}.

(** [Day()]: the class attributes are [None], [__init__] sets [levels = []]. *)
Definition Day_init : Day := mkDay None None [].

Definition set_date (d : Day) (v : option dt_date) : Day := mkDay v (region d) (levels d).
Definition set_region (d : Day) (v : option SnowRegion) : Day := mkDay (date d) v (levels d).
Definition set_levels (d : Day) (v : list Level) : Day := mkDay (date d) (region d) v.

(** [day.levels.append(level)] *)
Definition levels_append (d : Day) (level : Level) : Day :=
  set_levels d (levels d ++ [level]).

Abbreviation Timeline := (Container dt_date Day).
Abbreviation Aps := (Container (option SnowRegion) Timeline).

(** A row of a frame: [{(data_type, attr_name): attr ...}]. *)
Abbreviation Row := (list ((Attr * Z) * option Z)).

(** [bool(xs)] of a list or a dict *)
Definition list_bool {A : Type} (xs : list A) : bool :=
  match xs with
  | [] => false
  | _ :: _ => true
  end.

Section Aps.
(** [bool(data)] for a [Data] instance.  [Data] defines neither [__bool__]
    nor [__len__]; its base class [Dictable] lives in submit.py, which is
    not part of the sources, so the truth value is left open here. *)
Variable Data_bool : Data → bool.

(** [bool(timeline)]: [Container.__bool__] or [Container.__len__]
    (misc.py). *)
Variable Timeline_bool : Timeline → bool.

(** [bool(x)] for an attribute holding a [Data] or [None]. *)
Definition slot_bool (x : option Data) : bool :=
  match x with
  | Some d => Data_bool d
  | None => false
  end.

(** [s or o] *)
Definition slot_or (s o : option Data) : option Data :=
  if slot_bool s then s else o.

(** [Level.__bool__] *)
Definition Level_bool (self : Level) : bool :=
  existsb slot_bool ((λ k, getattr self k) <$> WEATHER_ATTRS_values).

(** [Day.__bool__] *)
Definition Day_bool (self : Day) : bool :=
  existsb Level_bool (levels self).

(** [Level.to_dict] *)
Definition Level_to_dict (self : Level) : list (Attr * option (list (Z * option Z))) :=
  foldl (λ d attr,
           let obj := getattr self attr in
           od_set d attr (if slot_bool obj then Data_to_dict <$> obj else None))
        [] WEATHER_ATTRS_values.

(** The body of the loop [for attr in WEATHER_ATTRS.values()] of
    [Level.assimilate]. *)
Definition Level_assimilate_attr (self other : Level) (level : Level) (attr : Attr)
  : result Level :=
  let s := getattr self attr in
  let o := getattr other attr in
  if negb (eqb (slot_bool s) (slot_bool o)) then
    Ok (setattr level attr (slot_or s o))
  else if slot_bool s && slot_bool o then
    Raise (ValueError ("Both levels have valid " +:+ attr_name attr +:+ " data"))
  else Ok level.

(** [Level.assimilate] *)
Definition Level_assimilate (self other : Level) : result Level :=
  let level := Level_init in
  v ← max_or_not_none (floor self) (floor other); let level := set_floor level v in
  v ← max_or_not_none (roof self) (roof other);   let level := set_roof level v in
  v ← max_or_not_none (index self) (index other); let level := set_index level v in
  for_each (Level_assimilate_attr self other) WEATHER_ATTRS_values level.

(** The body of the loop [for i in range(max(len(...), len(...)))] of
    [Day.assimilate]. *)
Definition Day_assimilate_step (self other : Day) (day : Day) (i : Z) : result Day :=
  let self_i := Z.min i (len (levels self) - 1) in
  let other_i := Z.min i (len (levels other) - 1) in
  s ← getitem (levels self) self_i;
  o ← getitem (levels other) other_i;
  level ← Level_assimilate s o;
  Ok (levels_append day level).

(** [Day.assimilate] *)
Definition Day_assimilate (self other : Day) : result Day :=
  if bool_decide (date self ≠ date other) || bool_decide (region self ≠ region other)
  then Raise (ValueError "Incompatible days")
  else
    let day := Day_init in
    let day := set_date day (date self) in
    let day := set_region day (region self) in
    if negb (list_bool (levels self)) then Ok (set_levels day (levels other))
    else if negb (list_bool (levels other)) then Ok (set_levels day (levels self))
    else
      for_each (Day_assimilate_step self other)
               (range (Z.max (len (levels self)) (len (levels other)))) day.

(** The inner comprehension of [to_frame]:
    [{(data_type, attr_name): attr
      for data_type, data in lvl.to_dict().items() if data
      for attr_name, attr in data.items()}] *)
Definition level_row (lvl : Level) : Row :=
  od_of_items
    (kv ← Level_to_dict lvl;
     match kv.2 with
     | Some data =>
         if list_bool data then (λ item, ((kv.1, item.1), item.2)) <$> data else []
     | None => []
     end).

(** [Day.to_frame], up to the dict [levels] that is handed to
    [pd.DataFrame]; the rows of the frame are the entries of this dict,
    of which pandas afterwards drops some (the rows without a true cell
    and the row labelled '0') and adds none. *)
Definition Day_to_frame (self : Day) (elevation level_index : option Z)
  : result (list (string * Row)) :=
  if bool_decide (elevation ≠ None) && bool_decide (level_index ≠ None) then
    Raise (ValueError "Only one of elevation and level_index parameters can be defined")
  else
    for_each
      (λ levels_ lvl,
         keep ← level_selected elevation level_index lvl;
         if keep : bool then Ok (od_set levels_ (Level_get_name lvl) (level_row lvl))
         else Ok levels_)
      (levels self) [].

(** [Timeline.get_region] *)
Definition Timeline_get_region (self : Timeline) : result (option SnowRegion) :=
  if negb (Timeline_bool self) then Raise (ValueError "No days to find region from")
  else day ← next_iter (Container_iter self); Ok (region day).

(** [Timeline.to_frame], up to the dict [levels] that is handed to
    [pd.DataFrame] and the name given to the frame. *)
Definition Timeline_to_frame (self : Timeline) (elevation level_index : option Z)
  : result (option SnowRegion * list ((option dt_date * string) * Row)) :=
  levels_ ←
    for_each
      (λ levels_ day,
         if Day_bool day then
           for_each
             (λ levels_ lvl,
                keep ← level_selected elevation level_index lvl;
                if keep : bool then
                  Ok (od_set levels_ (date day, Level_get_name lvl) (level_row lvl))
                else Ok levels_)
             (levels day) levels_
         else Ok levels_)
      (Container_iter self) [];
  name ← Timeline_get_region self;
  Ok (name, levels_).
End Aps.

(** ** Deserialization *)

(** ApsJsonRegion = Dict[str, Union[str, List[ApsJsonData]]] *)
Inductive ApsJsonRegionValue : Type :=
| RegionStr (s : string)
| RegionList (l : list ApsJsonData).
Abbreviation ApsJsonRegion := (gmap string ApsJsonRegionValue).

(** ApsJsonDay = Dict[str, Union[str, bool, List[ApsJsonRegion]]] *)
Inductive ApsJsonDayValue : Type :=
| DayStr (s : string)
| DayBool (b : bool)
| DayList (l : list ApsJsonRegion).
Abbreviation ApsJsonDay := (gmap string ApsJsonDayValue).

(** ApsJsonFull = Dict[str, List[ApsJsonDay]] *)
Abbreviation ApsJsonFull := (gmap string (list ApsJsonDay)).

(** What a caller can pass as [data_type]. *)
Inductive PyType : Type :=
| NotAClass                      (* an object that is not a class *)
| ClassData                      (* [Data] itself *)
| ClassWeather (cls : DataType)  (* one of the seven subclasses above *)
| ClassOtherData                 (* another subclass of [Data] *)
| ClassOther                     (* a plain class that does not derive from [Data] *)
| ClassBuiltin.                  (* a class such as [int], of which [object.__new__]
                                    refuses to make an instance *)

(** [bool(x)] of the payload values *)
Definition str_bool (s : string) : bool :=
  match s with
  | EmptyString => false
  | String _ _ => true
  end.

Definition ApsJsonRegionValue_bool (v : ApsJsonRegionValue) : bool :=
  match v with
  | RegionStr s => str_bool s
  | RegionList l => list_bool l
  end.

Definition ApsJsonDayValue_bool (v : ApsJsonDayValue) : bool :=
  match v with
  | DayStr s => str_bool s
  | DayBool b => b
  | DayList l => list_bool l
  end.

(** [s[:n]] on a string *)
Definition str_prefix (n : nat) (s : string) : string := String.substring 0 n s.

Section Deserialize.
Variable Timeline_bool : Timeline → bool.

(** The library functions deserialization calls: [dt.date.fromisoformat],
    [int] on a string, and the constructor [SnowRegion(n)] of region.py. *)
Variable fromisoformat : string → result dt_date.
Variable int_of_str : string → result Z.
Variable SnowRegion_new : Z → result SnowRegion.

(** The checks [Level.deserialize] makes on [data_type] before it reads the
    payload: [isinstance(data_type, type)], then [object.__new__(data_type)],
    which raises a TypeError for a class it cannot make an instance of, then
    the two tests on the instance. *)
Definition check_data_type (data_type : PyType) : result unit :=
  match data_type with
  | NotAClass =>
      Raise (ValueError "data_type should be a type (uninstatiated class), not an object.")
  | ClassBuiltin => Raise TypeError
  | ClassData => Raise (ValueError "data_type must be a subclase of aps.Data")
  | ClassOther => Raise (ValueError "data_type must be a subclass of aps.Data")
  | ClassWeather _ | ClassOtherData => Ok ()
  end.

(** [Level.deserialize] *)
Definition Level_deserialize (json : ApsJsonData) (data_type : PyType) : result Level :=
  _ ← check_data_type data_type;
  let level := Level_init in
  v ← dict_getitem json "ElevationBottom";
  let level := set_floor level (Some v) in
  top ← dict_getitem json "ElevationTop";
  v ← (if int_bool (Some top)
       then top' ← dict_getitem json "ElevationTop"; Ok (Some top')
       else Ok None : result (option Z));
  let level := set_roof level v in
  v ← dict_getitem json "ElevationBand";
  let level := set_index level (Some v) in
  match data_type with
  | ClassWeather cls =>
      match WEATHER_ATTRS_get cls with
      | Some attr =>
          data ← Data_deserialize cls json;
          Ok (setattr level attr (Some data))
      | None => Raise (ValueError "Unknown data_type")
      end
  | _ => Raise (ValueError "Unknown data_type")
  end.

(** [region_list[0]] for the value under "Regions" once it is true: the
    first region of a list; indexing a string gives a string, which has
    no keys, and a bool cannot be indexed. *)
Definition first_region (region_list : ApsJsonDayValue) : result ApsJsonRegion :=
  match region_list with
  | DayList l => getitem l 0
  | DayStr _ | DayBool _ => Raise TypeError
  end.

(** [Day.deserialize] *)
Definition Day_deserialize (json : ApsJsonDay) (data_type : PyType) : result Day :=
  region_list ← dict_getitem json "Regions";
  if negb (ApsJsonDayValue_bool region_list) then
    Raise (ValueError "No regions in timeline")
  else
    let day := Day_init in
    formatted ← dict_getitem json "FormattedDate";
    d ← match formatted with
        | DayStr s => fromisoformat (str_prefix 10 s)
        | DayBool _ | DayList _ => Raise TypeError
        end;
    let day := set_date day (Some d) in
    r0 ← first_region region_list;
    region_id ← dict_getitem r0 "RegionId";
    n ← match region_id with
        | RegionStr s => int_of_str s
        | RegionList _ => Raise TypeError
        end;
    r ← SnowRegion_new n;
    let day := set_region day (Some r) in
    r0 ← first_region region_list;
    elevation_list ← dict_getitem r0 "ElevationData";
    if negb (ApsJsonRegionValue_bool elevation_list) then Ok day
    else
      match elevation_list with
      | RegionList l =>
          for_each
            (λ day level,
               lvl ← Level_deserialize level data_type;
               Ok (levels_append day lvl))
            l day
      | RegionStr _ =>
          (* the loop runs over the characters of the string: the first
             call of [Level.deserialize] checks [data_type] and then
             subscripts a string with a key *)
          _ ← check_data_type data_type; Raise TypeError
      end.

(** [Timeline.deserialize] *)
Definition Timeline_deserialize (json : ApsJsonFull) (data_type : PyType)
  : result Timeline :=
  let timeline := Container_init in
  days ← dict_getitem json "TimeLine";
  for_each
    (λ timeline day,
       formatted ← dict_getitem day "FormattedDate";
       d ← match formatted with
           | DayStr s => fromisoformat (str_prefix 10 s)
           | DayBool _ | DayList _ => Raise TypeError
           end;
       elem ← Day_deserialize day data_type;
       Ok (Container_setitem timeline d elem))
    days timeline.

(** [Aps.deserialize] *)
Definition Aps_deserialize (json : ApsJsonFull) (data_type : PyType) : result Aps :=
  let aps := Container_init in
  timeline ← Timeline_deserialize json data_type;
  key ← Timeline_get_region Timeline_bool timeline;
  Ok (Container_setitem aps key timeline).
End Deserialize.

(** ** Band names back to numbers *)

(** The character '-' (code 45). *)
Definition dash : Ascii.ascii := Ascii.Ascii true false true true false true false false.

(** [s.split(sep, 1)] for a separator [sep] of one character: the part
    before the first [sep] and the part after it, or [s] alone when [sep]
    does not occur. *)
Fixpoint str_split_once (sep : Ascii.ascii) (s : string) : list string :=
  match s with
  | EmptyString => [EmptyString]
  | String c s' =>
      if decide (c = sep) then [EmptyString; s']
      else match str_split_once sep s' with
           | head :: tail => String c head :: tail
           | [] => [String c EmptyString]
           end
  end.

(** [Aps.parse_level]; [int] is the parameter [int_of_str]. *)
Definition Aps_parse_level (int_of_str : string → result Z) (string_ : string)
  : result (Z * Z) :=
  levels_ ← for_each (λ acc level, n ← int_of_str level; Ok (acc ++ [n]))
                     (str_split_once dash string_) [];
  match levels_ with
  | [l_min; l_max] => Ok (l_min, l_max)
  | [] | [_] =>
      Raise (ValueError ("not enough values to unpack (expected 2, got "
                         +:+ pretty (length levels_) +:+ ")"))
  | _ => Raise (ValueError "too many values to unpack (expected 2)")
  end.

(** ** Library functions, for running the model *)

(** The functions that deserialization takes from outside aps.py, on the
    inputs the examples below use: [int] on a decimal numeral,
    [dt.date.fromisoformat] on 'YYYY-MM-DD' with the proleptic Gregorian
    calendar, and a region enumeration given by the list of its ids. *)
Definition digit_value (c : Ascii.ascii) : option Z :=
  let n := Z.of_N (Ascii.N_of_ascii c) in
  if (48 <=? n) && (n <=? 57) then Some (n - 48) else None.

Fixpoint decimal_value (s : string) (acc : Z) : option Z :=
  match s with
  | EmptyString => Some acc
  | String c s' => d ← digit_value c; decimal_value s' (10 * acc + d)
  end.

Definition int_of_decimal (s : string) : result Z :=
  match s with
  | EmptyString => Raise (ValueError "invalid literal for int() with base 10")
  | String _ _ =>
      match decimal_value s 0 with
      | Some n => Ok n
      | None => Raise (ValueError "invalid literal for int() with base 10")
      end
  end.

Definition is_leap (y : Z) : bool :=
  (y mod 4 =? 0) && (negb (y mod 100 =? 0) || (y mod 400 =? 0)).

Definition days_in_month (y m : Z) : Z :=
  if m =? 2 then (if is_leap y then 29 else 28)
  else if (m =? 4) || (m =? 6) || (m =? 9) || (m =? 11) then 30
  else 31.

Definition fromisoformat_ymd (s : string) : result dt_date :=
  let bad := Raise (ValueError "Invalid isoformat string") in
  if negb (bool_decide (String.length s = 10%nat)) then bad
  else if negb (bool_decide (String.substring 4 1 s = "-")) then bad
  else if negb (bool_decide (String.substring 7 1 s = "-")) then bad
  else
    match decimal_value (String.substring 0 4 s) 0,
          decimal_value (String.substring 5 2 s) 0,
          decimal_value (String.substring 8 2 s) 0 with
    | Some y, Some m, Some d =>
        if (1 <=? y) && (1 <=? m) && (m <=? 12) && (1 <=? d) && (d <=? days_in_month y m)
        then Ok (mkdate y m d)
        else Raise (ValueError "date value out of range")
    | _, _, _ => bad
    end.

Definition SnowRegion_among (ids : list Z) (n : Z) : result SnowRegion :=
  if bool_decide (n ∈ ids) then Ok (mkSnowRegion n)
  else Raise (ValueError "not a valid SnowRegion").

(** ** Sample records *)

Definition sample_data (cls : DataType) : Data :=
  mkData cls (Some 1) (Some 2) (Some 3) (Some 4) (Some 5) (Some 2) (Some 7).

(** A band holding only the sample data of class [cls], in the slot [attr]. *)
Definition band (floor_ roof_ index_ : option Z) (attr : Attr) (cls : DataType) : Level :=
  setattr (mkLevel floor_ roof_ index_ None None None None None None None)
          attr (Some (sample_data cls)).

Definition sample_date : dt_date := mkdate 2024 1 1.
Definition next_date : dt_date := mkdate 2024 1 2.
Definition region_3003 : SnowRegion := mkSnowRegion 3003.
Definition region_3010 : SnowRegion := mkSnowRegion 3010.

(** One band of the wire format, with temperature statistics. *)
Definition sample_band_json : ApsJsonData :=
  {[ "ElevationBottom" := 0; "ElevationTop" := 500; "ElevationBand" := 1;
     "Minimum" := 1; "Perc05" := 2; "FirstQuartile" := 3; "Median" := 4;
     "ThirdQuartile" := 5; "Perc95" := 6; "Maximum" := 7 ]}.

(** A payload of two days: the first names region 3003 and has no elevation
    data, the second names region 3010 and has one band. *)
Definition mixed_payload : ApsJsonFull :=
  {[ "TimeLine" :=
       [ {[ "FormattedDate" := DayStr "2024-01-01T00:00:00";
            "Regions" := DayList [ {[ "RegionId" := RegionStr "3003";
                                      "ElevationData" := RegionList [] ]} ] ]};
         {[ "FormattedDate" := DayStr "2024-01-02T00:00:00";
            "Regions" := DayList [ {[ "RegionId" := RegionStr "3010";
                                      "ElevationData" := RegionList [sample_band_json] ]} ] ]}
       ] ]}.

(** The timeline that payload deserializes to. *)
Definition mixed_timeline : Timeline :=
  [ (sample_date, mkDay (Some sample_date) (Some region_3003) []);
    (next_date, mkDay (Some next_date) (Some region_3010)
                      [band (Some 0) (Some 500) (Some 1) temp_ Temp]) ].

(** A payload without days. *)
Definition empty_payload : ApsJsonFull := {[ "TimeLine" := [] ]}.

(** Inputs on which the numeric merge loses a 0: a band at sea level holding
    temperature, and a band built by [Level()] whose floor was never set,
    holding wind; and the day records made of one such band each. *)
Definition sea_level_band : Level := band (Some 0) None (Some 1) temp_ Temp.
Definition floorless_band : Level := band None None (Some 1) wind_ Wind.
Definition sea_level_day : Day := mkDay (Some sample_date) (Some region_3003) [sea_level_band].
Definition floorless_day : Day := mkDay (Some sample_date) (Some region_3003) [floorless_band].

(** A day whose only band spans 0 to 500 m, and the timeline holding it. *)
Definition lowland_band : Level := band (Some 0) (Some 500) (Some 1) temp_ Temp.
Definition lowland_day : Day := mkDay (Some sample_date) (Some region_3003) [lowland_band].
Definition lowland_timeline : Timeline := [(sample_date, lowland_day)].

(** Two day records of the same date and region with different numbers of
    bands: two bands holding temperature, one band holding wind. *)
Definition upland_band : Level := band (Some 500) None (Some 2) temp_ Temp.
Definition two_band_day : Day :=
  mkDay (Some sample_date) (Some region_3003) [lowland_band; upland_band].
Definition windy_band : Level := band (Some 0) (Some 500) (Some 1) wind_ Wind.
Definition windy_day : Day := mkDay (Some sample_date) (Some region_3003) [windy_band].
Definition later_day : Day := mkDay (Some next_date) (Some region_3003) [lowland_band].

(** A record whose second band holds temperature, after a band holding
    wind: merged with [lowland_day], its second band is paired with the
    only band of that record. *)
Definition wind_then_temp_day : Day :=
  mkDay (Some sample_date) (Some region_3003) [windy_band; upland_band].

(** Two day records in which the band whose field [index] is 1 holds
    temperature: at position 1 of the first record, at position 0 of the
    second. *)
Definition shifted_day_a : Day :=
  mkDay (Some sample_date) (Some region_3003)
        [band (Some 0) (Some 500) (Some 0) precip_ Precip;
         band (Some 500) None (Some 1) temp_ Temp].
Definition shifted_day_b : Day :=
  mkDay (Some sample_date) (Some region_3003)
        [band (Some 500) None (Some 1) temp_ Temp;
         band (Some 1000) None (Some 2) wind_ Wind].

(** A band holding both temperature and wind, a day of the wire format
    without elevation data, and the record it deserializes to. *)
Definition temp_wind_band : Level := setattr lowland_band wind_ (Some (sample_data Wind)).
Definition bandless_day_json : ApsJsonDay :=
  {[ "FormattedDate" := DayStr "2024-01-01T00:00:00";
     "Regions" := DayList [ {[ "RegionId" := RegionStr "3003";
                               "ElevationData" := RegionList [] ]} ] ]}.
Definition bandless_day : Day := mkDay (Some sample_date) (Some region_3003) [].

(** ** Vocabulary of the properties *)

Section Vocabulary.
Variable Data_bool : Data → bool.

(** The measurement slot [attr] of a band is populated: it holds a [Data]
    that is true. *)
Definition populated (lvl : Level) (attr : Attr) : bool :=
  slot_bool Data_bool (getattr lvl attr).

(** Both bands populate the slot [attr]. *)
Definition conflict (self other : Level) (attr : Attr) : bool :=
  populated self attr && populated other attr.

(** Two bands have disjoint measurement-slot coverage. *)
Definition disjoint_slots (self other : Level) : Prop :=
  ∀ attr, conflict self other attr = false.

(** What the loop over the attributes of [Level.assimilate] leaves in the
    slot [attr] when the two bands do not both populate it. *)
Definition merged_slot (self other : Level) (attr : Attr) : option Data :=
  if xorb (populated self attr) (populated other attr)
  then (if populated self attr then getattr self attr else getattr other attr)
  else None.

(** The record the specification derives the region of a timeline from:
    the first record that is present. *)
Definition first_present (self : Timeline) : option Day :=
  List.find (Day_bool Data_bool) (Container_iter self).
End Vocabulary.

(** The two bands that position [k] of a merged record is made of:
    [self.levels[min(k, len(self.levels) - 1)]] and
    [other.levels[min(k, len(other.levels) - 1)]]. *)
Definition paired (self other : Day) (k : nat) (x y : Level) : Prop :=
  levels self !! (k `min` (length (levels self) - 1))%nat = Some x ∧
  levels other !! (k `min` (length (levels other) - 1))%nat = Some y.

(** The claim on conflicting data in the specification's words, the slot
    of a measurement being the pair of the elevation-band index (the field
    [index] of a band) and the weather parameter: two records of the same
    date and region that both populate one such slot cannot be merged. *)
Definition conflicting_data_by_index (Data_bool : Data → bool) : Prop :=
  ∀ (A B : Day) (a b : Level) (attr : Attr),
    date A = date B → region A = region B →
    a ∈ levels A → b ∈ levels B → index a = index b →
    populated Data_bool a attr = true → populated Data_bool b attr = true →
    ∃ e, Day_assimilate Data_bool A B = Raise e ∧ ConflictingData e.

(** The claim on [get_region] in the specification's words: on a timeline
    that is not empty, the region returned is that of the first present
    record. *)
Definition region_of_first_present (Data_bool : Data → bool)
  (Timeline_bool : Timeline → bool) : Prop :=
  ∀ self : Timeline, Timeline_bool self = true →
    ∃ day, first_present Data_bool self = Some day ∧
           Timeline_get_region Timeline_bool self = Ok (region day).

(** A numeric field is 0 on one side and absent on the other. *)
Definition zero_beside_none (x y : option Z) : Prop :=
  (x = Some 0 ∧ y = None) ∨ (x = None ∧ y = Some 0).

(** No numeric field of two bands is 0 on one side and absent on the other. *)
Definition numeric_compatible (x y : Level) : Prop :=
  ¬ zero_beside_none (floor x) (floor y) ∧
  ¬ zero_beside_none (roof x) (roof y) ∧
  ¬ zero_beside_none (index x) (index y).

(** ** Vocabulary of the merge of band lists *)

(** [xs[min(k, len(xs) - 1)]]: band [k] of a list, the last band standing in
    for every position past the end. *)
Definition clamped {A : Type} (xs : list A) (k : nat) : option A :=
  xs !! (k `min` (length xs - 1))%nat.

(** The band list [d] is the position-wise merge of the non-empty band lists
    [a] and [b]. *)
Definition pointwise_merge (Data_bool : Data → bool) (a b d : list Level) : Prop :=
  length d = (length a `max` length b)%nat ∧
  ∀ k, ∃ x y l, clamped a k = Some x ∧ clamped b k = Some y ∧ clamped d k = Some l ∧
                Level_assimilate Data_bool x y = Ok l.

(** The band list of [self.assimilate(other)]: the other list when one is
    empty, the position-wise merge otherwise. *)
Definition merged_bands (Data_bool : Data → bool) (a b d : list Level) : Prop :=
  match a, b with
  | [], _ => d = b
  | _ :: _, [] => d = a
  | _ :: _, _ :: _ => pointwise_merge Data_bool a b d
  end.

(** The cells that the slot [attr] of a band gives to the row of the band:
    the seven percentiles of the [Data] it holds when it is populated, none
    otherwise. *)
Definition slot_cells (Data_bool : Data → bool) (lvl : Level) (attr : Attr)
  : list ((Attr * Z) * option Z) :=
  if populated Data_bool lvl attr then
    match getattr lvl attr with
    | Some d => (λ item, ((attr, item.1), item.2)) <$> Data_to_dict d
    | None => []
    end
  else [].

(** * Properties *)

(** ** The error monad and the loops *)

Lemma bind_Ok {A B : Type} (a : A) (f : A → result B) : (Ok a ≫= f) = f a.
Proof. reflexivity. Qed.

Lemma bind_Raise {A B : Type} (e : Exception) (f : A → result B) :
  (Raise e ≫= f) = Raise e.
Proof. reflexivity. Qed.

Lemma for_each_app {A S : Type} (body : S → A → result S) xs ys acc :
  for_each body (xs ++ ys) acc = acc' ← for_each body xs acc; for_each body ys acc'.
Proof.
  revert acc. induction xs as [|x xs IH]; intros acc; simpl; [done|].
  destruct (body acc x) as [acc'|e]; simpl; [apply IH | done].
Qed.

Lemma for_each_ext {A S : Type} (f g : S → A → result S) (xs : list A) (acc : S) :
  (∀ x s, x ∈ xs → f s x = g s x) → for_each f xs acc = for_each g xs acc.
Proof.
  revert acc. induction xs as [|x xs IH]; intros acc Hfg; simpl; [done|].
  rewrite (Hfg x acc) by (apply elem_of_cons; by left).
  destruct (g acc x) as [acc'|e]; simpl; [|done].
  apply IH. intros x' s Hx'. apply Hfg, elem_of_cons. by right.
Qed.

Lemma range_succ (n : nat) :
  range (Z.of_nat (S n)) = range (Z.of_nat n) ++ [Z.of_nat n].
Proof.
  unfold range. rewrite !Nat2Z.id, seq_S, fmap_app. done.
Qed.

Lemma getitem_of_nat {A : Type} (xs : list A) (k : nat) :
  getitem xs (Z.of_nat k) =
  match xs !! k with Some x => Ok x | None => Raise IndexError end.
Proof.
  unfold getitem.
  destruct (Z.ltb_spec (Z.of_nat k) 0) as [Hneg|_]; [lia|].
  destruct (Z.ltb_spec (Z.of_nat k) 0) as [Hneg|_]; [lia|].
  by rewrite Nat2Z.id.
Qed.

(** ** Numeric fields *)

Lemma max_or_not_none_total (x y : option Z) : ∃ v, max_or_not_none x y = Ok v.
Proof. destruct x as [[|a|a]|], y as [[|b|b]|]; simpl; eauto. Qed.

Lemma max_or_not_none_exact (x y : option Z) :
  max_or_not_none x y =
  Ok (match x, y with
      | Some a, Some b =>
          if bool_decide (a = 0) then Some b
          else if bool_decide (b = 0) then Some a
          else Some (Z.max a b)
      | Some a, None => if bool_decide (a = 0) then None else Some a
      | None, _ => y
      end).
Proof. destruct x as [[|a|a]|], y as [[|b|b]|]; reflexivity. Qed.

Lemma max_or_not_none_comm (x y : option Z) :
  ¬ zero_beside_none x y → max_or_not_none x y = max_or_not_none y x.
Proof.
  intros Hz. rewrite !max_or_not_none_exact. f_equal.
  destruct x as [a|], y as [b|]; try done.
  - repeat case_bool_decide; subst; try done. by rewrite Z.max_comm.
  - case_bool_decide; [|done]. subst. destruct Hz. left. done.
  - destruct (decide (b = 0)) as [->|Hb].
    + destruct Hz. by right.
    + by rewrite bool_decide_eq_false_2.
Qed.

(** C4: the numeric merge of [Level.assimilate] at a sea-level band: with
    floor 0 on the calling side and no floor on the other side the merged
    floor is [None], not 0, although the same two values in the other order
    give 0. *)
Theorem max_or_not_none_loses_zero :
  max_or_not_none (Some 0) None = Ok None ∧
  max_or_not_none None (Some 0) = Ok (Some 0) ∧
  ∃ level, Level_assimilate object_bool sea_level_band floorless_band = Ok level ∧
           floor sea_level_band = Some 0 ∧ floor floorless_band = None ∧
           floor level = None.
Proof. split_and!; try reflexivity. eexists. split_and!; reflexivity. Qed.

(** X1: when neither value is 0, the numeric merge is the larger of two
    present values and otherwise the value that is present, if any. *)
Theorem max_or_not_none_nonzero (x y : option Z) :
  x ≠ Some 0 → y ≠ Some 0 →
  max_or_not_none x y =
  Ok (match x, y with
      | Some a, Some b => Some (Z.max a b)
      | Some a, None => Some a
      | None, _ => y
      end).
Proof.
  intros Hx Hy. rewrite max_or_not_none_exact.
  destruct x as [a|], y as [b|]; repeat case_bool_decide; congruence.
Qed.

Lemma max_or_not_none_nonzero_witness :
  max_or_not_none (Some 300) (Some 500) = Ok (Some 500).
Proof. apply (max_or_not_none_nonzero (Some 300) (Some 500)); discriminate. Defined.

(** ** Attributes of a band *)

Lemma getattr_setattr (l : Level) (a b : Attr) (v : option Data) :
  getattr (setattr l a v) b = if decide (a = b) then v else getattr l b.
Proof. destruct a, b; reflexivity. Qed.

Lemma floor_setattr l a v : floor (setattr l a v) = floor l.
Proof. by destruct a. Qed.
Lemma roof_setattr l a v : roof (setattr l a v) = roof l.
Proof. by destruct a. Qed.
Lemma index_setattr l a v : index (setattr l a v) = index l.
Proof. by destruct a. Qed.

Lemma Level_ext (l1 l2 : Level) :
  floor l1 = floor l2 → roof l1 = roof l2 → index l1 = index l2 →
  (∀ a, getattr l1 a = getattr l2 a) → l1 = l2.
Proof.
  intros Hf Hr Hi Hg. destruct l1, l2; simpl in *. subst.
  pose proof (Hg precip_) as H1. pose proof (Hg precip_max_) as H2.
  pose proof (Hg temp_) as H3. pose proof (Hg wind_) as H4.
  pose proof (Hg snow_depth_) as H5. pose proof (Hg new_snow_) as H6.
  pose proof (Hg new_snow_max_) as H7. simpl in *. congruence.
Qed.

Lemma WEATHER_ATTRS_values_all (a : Attr) : a ∈ WEATHER_ATTRS_values.
Proof.
  destruct a; unfold WEATHER_ATTRS_values; simpl;
    repeat first [apply list_elem_of_here | apply list_elem_of_further].
Qed.

Section LevelFacts.
Variable Data_bool : Data → bool.
Local Abbreviation sb := (slot_bool Data_bool).
Local Abbreviation conflict := (conflict Data_bool).
Local Abbreviation populated := (populated Data_bool).
Local Abbreviation merged_slot := (merged_slot Data_bool).

Lemma Level_assimilate_attr_cases self other level attr :
  (conflict self other attr = true ∧
   Level_assimilate_attr Data_bool self other level attr =
     Raise (ValueError ("Both levels have valid " +:+ attr_name attr +:+ " data"))) ∨
  (conflict self other attr = false ∧
   Level_assimilate_attr Data_bool self other level attr =
     Ok (if xorb (populated self attr) (populated other attr)
         then setattr level attr (merged_slot self other attr) else level)).
Proof.
  unfold Level_assimilate_attr, conflict, merged_slot, populated, slot_or.
  destruct (sb (getattr self attr)), (sb (getattr other attr)); simpl; auto.
Qed.

Lemma assimilate_attrs_Ok self other attrs level level' :
  for_each (Level_assimilate_attr Data_bool self other) attrs level = Ok level' →
  (∀ a, a ∈ attrs → conflict self other a = false) ∧
  floor level' = floor level ∧ roof level' = roof level ∧ index level' = index level ∧
  ∀ a, getattr level' a =
       if bool_decide (a ∈ attrs) && xorb (populated self a) (populated other a)
       then merged_slot self other a else getattr level a.
Proof.
  revert level. induction attrs as [|b attrs IH]; intros level; simpl.
  - intros [= <-]. split_and!; try done. intros a Ha. by apply elem_of_nil in Ha.
  - destruct (Level_assimilate_attr_cases self other level b) as [[Hc ->]|[Hc ->]];
      simpl; [done|].
    intros Hrest. apply IH in Hrest as (Hno & Hf & Hr & Hi & Hg).
    split_and!.
    + intros a [->|Ha]%elem_of_cons; auto.
    + rewrite Hf. case_match; [apply floor_setattr | done].
    + rewrite Hr. case_match; [apply roof_setattr | done].
    + rewrite Hi. case_match; [apply index_setattr | done].
    + intros a. rewrite Hg.
      destruct (decide (a = b)) as [->|Hab].
      * rewrite (bool_decide_eq_true_2 (b ∈ b :: attrs)) by apply list_elem_of_here.
        destruct (xorb (populated self b) (populated other b)) eqn:Hx;
          rewrite ?andb_true_r, ?andb_false_r; simpl.
        -- case_bool_decide; simpl; [done|].
           rewrite getattr_setattr. by rewrite decide_True.
        -- done.
      * assert (bool_decide (a ∈ b :: attrs) = bool_decide (a ∈ attrs)) as ->.
        { apply bool_decide_ext. rewrite elem_of_cons. tauto. }
        destruct (bool_decide (a ∈ attrs) && xorb (populated self a) (populated other a));
          [done|].
        case_match; [|done]. rewrite getattr_setattr. by rewrite decide_False.
Qed.

Lemma assimilate_attrs_Raise self other attrs level e :
  for_each (Level_assimilate_attr Data_bool self other) attrs level = Raise e →
  ∃ a, a ∈ attrs ∧ conflict self other a = true ∧
       e = ValueError ("Both levels have valid " +:+ attr_name a +:+ " data").
Proof.
  revert level. induction attrs as [|b attrs IH]; intros level; simpl; [done|].
  destruct (Level_assimilate_attr_cases self other level b) as [[Hc ->]|[Hc ->]]; simpl.
  - intros [= <-]. exists b. split_and!; [apply list_elem_of_here | done | done].
  - intros (a & Ha & Hca & He)%IH. exists a.
    split_and!; [by apply list_elem_of_further | done | done].
Qed.

Lemma Level_assimilate_Raise self other e :
  Level_assimilate Data_bool self other = Raise e →
  ∃ a, conflict self other a = true ∧
       e = ValueError ("Both levels have valid " +:+ attr_name a +:+ " data").
Proof.
  unfold Level_assimilate.
  destruct (max_or_not_none_total (floor self) (floor other)) as [vf ->].
  destruct (max_or_not_none_total (roof self) (roof other)) as [vr ->].
  destruct (max_or_not_none_total (index self) (index other)) as [vi ->].
  rewrite !bind_Ok. intros (a & _ & Ha & He)%assimilate_attrs_Raise. eauto.
Qed.

Lemma Level_assimilate_Ok self other level :
  Level_assimilate Data_bool self other = Ok level →
  disjoint_slots Data_bool self other ∧
  max_or_not_none (floor self) (floor other) = Ok (floor level) ∧
  max_or_not_none (roof self) (roof other) = Ok (roof level) ∧
  max_or_not_none (index self) (index other) = Ok (index level) ∧
  ∀ a, getattr level a = merged_slot self other a.
Proof.
  unfold Level_assimilate.
  destruct (max_or_not_none_total (floor self) (floor other)) as [vf ->].
  destruct (max_or_not_none_total (roof self) (roof other)) as [vr ->].
  destruct (max_or_not_none_total (index self) (index other)) as [vi ->].
  rewrite !bind_Ok. intros (Hno & Hf & Hr & Hi & Hg)%assimilate_attrs_Ok.
  split_and!; try (f_equal; done).
  - intros a. apply Hno, WEATHER_ATTRS_values_all.
  - intros a. rewrite Hg.
    rewrite (bool_decide_eq_true_2 _ (WEATHER_ATTRS_values_all a)). simpl.
    unfold merged_slot. destruct (xorb _ _); [done | by destruct a].
Qed.

Lemma Level_assimilate_disjoint self other :
  disjoint_slots Data_bool self other →
  ∃ level, Level_assimilate Data_bool self other = Ok level.
Proof.
  intros Hd. destruct (Level_assimilate Data_bool self other) as [l|e] eqn:E; [eauto|].
  apply Level_assimilate_Raise in E as (a & Ha & _). by rewrite Hd in Ha.
Qed.

Lemma Level_assimilate_conflict self other attr :
  conflict self other attr = true →
  ∃ e, Level_assimilate Data_bool self other = Raise e ∧ ConflictingData e.
Proof.
  intros Hc. destruct (Level_assimilate Data_bool self other) as [l|e] eqn:E.
  - apply Level_assimilate_Ok in E as (Hd & _). by rewrite Hd in Hc.
  - exists e. split; [done|].
    apply Level_assimilate_Raise in E as (a & _ & ->). by exists (attr_name a).
Qed.
End LevelFacts.

(** ** The loop of Day.assimilate *)

Lemma min_index_of_nat {A : Type} (xs : list A) (k : nat) :
  xs ≠ [] →
  Z.min (Z.of_nat k) (len xs - 1) = Z.of_nat (k `min` (length xs - 1)).
Proof. intros Hne. unfold len. destruct xs; [done|]. simpl length. lia. Qed.

Lemma lookup_min_index {A : Type} (xs : list A) (k : nat) :
  xs ≠ [] → is_Some (xs !! (k `min` (length xs - 1))%nat).
Proof.
  intros Hne. apply lookup_lt_is_Some. destruct xs; [done|]. simpl length. lia.
Qed.

Section DayFacts.
Variable Data_bool : Data → bool.

Lemma Day_assimilate_step_of_nat self other day (k : nat) :
  levels self ≠ [] → levels other ≠ [] →
  ∃ x y, paired self other k x y ∧
    Day_assimilate_step Data_bool self other day (Z.of_nat k) =
    level ← Level_assimilate Data_bool x y; Ok (levels_append day level).
Proof.
  intros Ha Hb. unfold Day_assimilate_step, paired.
  rewrite !min_index_of_nat, !getitem_of_nat by done.
  destruct (lookup_min_index (levels self) k Ha) as [x ->].
  destruct (lookup_min_index (levels other) k Hb) as [y ->].
  by exists x, y.
Qed.

Lemma Day_loop_Ok self other (n : nat) day0 day :
  levels self ≠ [] → levels other ≠ [] →
  for_each (Day_assimilate_step Data_bool self other) (range (Z.of_nat n)) day0 = Ok day →
  date day = date day0 ∧ region day = region day0 ∧
  ∃ ls, levels day = levels day0 ++ ls ∧ length ls = n ∧
        ∀ k, (k < n)%nat → ∃ x y level,
          paired self other k x y ∧
          Level_assimilate Data_bool x y = Ok level ∧ ls !! k = Some level.
Proof.
  intros Ha Hb. revert day. induction n as [|n IH]; intros day.
  - intros [= <-]. split_and!; try done. exists []. rewrite app_nil_r.
    split_and!; try done. lia.
  - rewrite range_succ, for_each_app.
    destruct (for_each _ (range (Z.of_nat n)) day0) as [day1|e] eqn:E; [|done].
    destruct (IH day1 eq_refl) as (Hd & Hr & ls & Hls & Hlen & Hk).
    simpl. destruct (Day_assimilate_step_of_nat self other day1 n Ha Hb)
      as (x & y & Hp & ->).
    destruct (Level_assimilate Data_bool x y) as [l|e] eqn:El; simpl; [|done].
    intros [= <-]. simpl. split_and!; try done.
    exists (ls ++ [l]). rewrite Hls, app_assoc, length_app. simpl.
    split_and!; [done | lia |].
    intros k Hlt. destruct (decide (k = n)) as [->|Hne].
    + exists x, y, l. split_and!; try done.
      rewrite lookup_app_r by lia. by rewrite Hlen, Nat.sub_diag.
    + destruct (Hk k) as (x' & y' & l' & ? & ? & ?); [lia|].
      exists x', y', l'. split_and!; try done.
      by apply lookup_app_l_Some.
Qed.

Lemma Day_loop_Raise self other (n : nat) day0 e :
  levels self ≠ [] → levels other ≠ [] →
  for_each (Day_assimilate_step Data_bool self other) (range (Z.of_nat n)) day0 = Raise e →
  ∃ k x y, (k < n)%nat ∧ paired self other k x y ∧
           Level_assimilate Data_bool x y = Raise e.
Proof.
  intros Ha Hb. induction n as [|n IH]; [done|].
  rewrite range_succ, for_each_app.
  destruct (for_each _ (range (Z.of_nat n)) day0) as [day1|e'] eqn:E; simpl.
  - destruct (Day_assimilate_step_of_nat self other day1 n Ha Hb) as (x & y & Hp & ->).
    destruct (Level_assimilate Data_bool x y) as [l|e'] eqn:El; simpl; [done|].
    intros [= <-]. exists n, x, y. split_and!; [lia | done | done].
  - intros [= <-]. destruct (IH eq_refl) as (k & x & y & ? & ? & ?).
    exists k, x, y. split_and!; [lia | done | done].
Qed.

Lemma max_len_of_nat {A B : Type} (xs : list A) (ys : list B) :
  Z.max (len xs) (len ys) = Z.of_nat (length xs `max` length ys).
Proof. unfold len. lia. Qed.

Lemma list_bool_true {A : Type} (xs : list A) : list_bool xs = true ↔ xs ≠ [].
Proof. by destruct xs. Qed.
End DayFacts.

(** ** Day.assimilate *)

Section DayAssimilate.
Variable Data_bool : Data → bool.

Lemma Day_assimilate_compatible (A B : Day) :
  date A = date B → region A = region B → levels A ≠ [] → levels B ≠ [] →
  Day_assimilate Data_bool A B =
  for_each (Day_assimilate_step Data_bool A B)
           (range (Z.of_nat (length (levels A) `max` length (levels B))))
           (mkDay (date A) (region A) []).
Proof.
  intros Hd Hr Ha Hb. unfold Day_assimilate.
  rewrite !bool_decide_eq_false_2 by (intros H; done).
  apply list_bool_true in Ha, Hb. rewrite Ha, Hb. simpl.
  by rewrite max_len_of_nat.
Qed.
End DayAssimilate.

(** C1, amended: two day records of the same date and region, with any
    numbers of bands, cannot be merged exactly when, at some position [k]
    below [max(len(a), len(b))], the two bands that the merge pairs there,
    [a[min(k, len(a)-1)]] and [b[min(k, len(b)-1)]], both populate one
    measurement slot: [A.assimilate(B)] then raises the ValueError 'Both
    levels have valid ... data' (ConflictingData), and it raises nothing
    else.  The bands are compared by their position in the two lists, the
    last band of the shorter list standing in past its end; the field
    [index] plays no part. *)
Theorem Day_assimilate_conflicting_pair (Data_bool : Data → bool) (A B : Day) :
  date A = date B → region A = region B →
  ((∃ k a b attr, (k < length (levels A) `max` length (levels B))%nat ∧
      paired A B k a b ∧
      populated Data_bool a attr = true ∧ populated Data_bool b attr = true) ↔
   ∃ e, Day_assimilate Data_bool A B = Raise e ∧ ConflictingData e) ∧
  ∀ e, Day_assimilate Data_bool A B = Raise e → ConflictingData e.
Proof.
  intros Hd Hr.
  assert (∀ e, Day_assimilate Data_bool A B = Raise e →
            ConflictingData e ∧
            ∃ k a b attr, (k < length (levels A) `max` length (levels B))%nat ∧
              paired A B k a b ∧
              populated Data_bool a attr = true ∧ populated Data_bool b attr = true)
    as Hraise.
  { intros e He.
    destruct (decide (levels A = [])) as [Ha|Ha].
    { unfold Day_assimilate in He.
      rewrite !bool_decide_eq_false_2, Ha in He by (intros H; done). done. }
    destruct (decide (levels B = [])) as [Hb|Hb].
    { unfold Day_assimilate in He. apply list_bool_true in Ha.
      rewrite !bool_decide_eq_false_2, Ha, Hb in He by (intros H; done). done. }
    rewrite Day_assimilate_compatible in He by done.
    apply Day_loop_Raise in He as (k & x & y & Hk & Hp & Hl); try done.
    apply Level_assimilate_Raise in Hl as (attr & Hc & ->).
    split; [by exists (attr_name attr)|].
    apply andb_true_iff in Hc as [Hx Hy]. by exists k, x, y, attr. }
  split; [split|].
  - intros (k & a & b & attr & Hk & [Hx Hy] & Hpa & Hpb).
    assert (levels A ≠ []) as Ha by (intros E; by rewrite E in Hx).
    assert (levels B ≠ []) as Hb by (intros E; by rewrite E in Hy).
    destruct (Day_assimilate Data_bool A B) as [day|e] eqn:E.
    + exfalso. rewrite Day_assimilate_compatible in E by done.
      apply Day_loop_Ok in E as (_ & _ & ls & _ & _ & Hks); try done.
      destruct (Hks k Hk) as (x & y & l & [Hx' Hy'] & Hl & _).
      assert (x = a) as -> by congruence. assert (y = b) as -> by congruence.
      apply Level_assimilate_Ok in Hl as (Hdis & _).
      specialize (Hdis attr). unfold conflict in Hdis. by rewrite Hpa, Hpb in Hdis.
    + exists e. split; [done|]. by apply (Hraise e).
  - intros (e & He & _). by apply (Hraise e).
  - intros e He. by apply (Hraise e).
Qed.

Lemma Day_assimilate_conflicting_pair_witness :
  (∃ k a b attr, (k < 2)%nat ∧ paired wind_then_temp_day lowland_day k a b ∧
     populated object_bool a attr = true ∧ populated object_bool b attr = true) ∧
  ∃ e, Day_assimilate object_bool wind_then_temp_day lowland_day = Raise e ∧
       ConflictingData e.
Proof.
  assert (∃ k a b attr, (k < 2)%nat ∧ paired wind_then_temp_day lowland_day k a b ∧
            populated object_bool a attr = true ∧ populated object_bool b attr = true)
    as Hpair.
  { exists 1%nat, upland_band, lowland_band, temp_.
    split; [lia|]. split; [split; reflexivity|]. split; reflexivity. }
  split; [exact Hpair|].
  destruct (Day_assimilate_conflicting_pair object_bool wind_then_temp_day lowland_day
              eq_refl eq_refl) as [[Hraises _] _].
  apply Hraises, Hpair.
Defined.

(** The slots of a merge are positions of the band lists, not values of the
    field [index]: the two records [shifted_day_a] and [shifted_day_b] both
    hold temperature in the band whose [index] is 1, at different positions,
    and merge without an exception. *)
Example Day_assimilate_pairs_by_position :
  ∃ day, Day_assimilate object_bool shifted_day_a shifted_day_b = Ok day ∧
         index <$> levels day = [Some 1; Some 2].
Proof. eexists. split; reflexivity. Qed.

(** C1, as stated, fails on the records [shifted_day_a] and
    [shifted_day_b]: both hold temperature in the band whose [index] is 1,
    the first at position 1 and the second at position 0, and
    [shifted_day_a.assimilate(shifted_day_b)] returns a record. *)
Lemma conflicting_data_not_by_index : ¬ conflicting_data_by_index object_bool.
Proof.
  intros Hclaim.
  destruct (Hclaim shifted_day_a shifted_day_b
              (band (Some 500) None (Some 1) temp_ Temp)
              (band (Some 500) None (Some 1) temp_ Temp) temp_)
    as (e & He & _); try reflexivity.
  - apply list_elem_of_further, list_elem_of_here.
  - apply list_elem_of_here.
  - discriminate He.
Qed.

(** C2: for two day records of the same date and region, if exactly one
    side has no bands the result carries the other side's bands as they are;
    otherwise a result has [max(len(a), len(b))] bands and its band [k] is
    the merge of [a[min(k, len(a)-1)]] with [b[min(k, len(b)-1)]], and there
    is a result as soon as each of these merges succeeds. *)
Theorem Day_assimilate_bands (Data_bool : Data → bool) (A B : Day) :
  date A = date B → region A = region B →
  (levels A = [] → levels B ≠ [] →
     Day_assimilate Data_bool A B = Ok (mkDay (date A) (region A) (levels B))) ∧
  (levels A ≠ [] → levels B = [] →
     Day_assimilate Data_bool A B = Ok (mkDay (date A) (region A) (levels A))) ∧
  ((levels A = [] ↔ levels B = []) →
     (∀ day, Day_assimilate Data_bool A B = Ok day →
        date day = date A ∧ region day = region A ∧
        length (levels day) = (length (levels A) `max` length (levels B))%nat ∧
        ∀ k, (k < length (levels A) `max` length (levels B))%nat →
          ∃ x y level, paired A B k x y ∧
            Level_assimilate Data_bool x y = Ok level ∧
            levels day !! k = Some level) ∧
     ((∀ k x y, (k < length (levels A) `max` length (levels B))%nat →
         paired A B k x y → ∃ level, Level_assimilate Data_bool x y = Ok level) →
      ∃ day, Day_assimilate Data_bool A B = Ok day)).
Proof.
  intros Hd Hr. split_and!.
  - intros Ha Hb. unfold Day_assimilate.
    rewrite !bool_decide_eq_false_2 by (intros H; done). by rewrite Ha.
  - intros Ha Hb. unfold Day_assimilate.
    rewrite !bool_decide_eq_false_2 by (intros H; done).
    apply list_bool_true in Ha. by rewrite Ha, Hb.
  - intros Hboth. destruct (decide (levels A = [])) as [Ha|Ha].
    + pose proof (proj1 Hboth Ha) as Hb. unfold Day_assimilate.
      rewrite !bool_decide_eq_false_2 by (intros H; done). rewrite Ha, Hb. simpl.
      split; [|eauto]. intros day [= <-]. simpl. split_and!; try done. lia.
    + assert (levels B ≠ []) as Hb by (intros Hb; by apply Ha, Hboth).
      rewrite Day_assimilate_compatible by done. split.
      * intros day E. apply Day_loop_Ok in E as (Hd' & Hr' & ls & Hls & Hlen & Hk);
          try done.
        simpl in *. subst ls. split_and!; done.
      * intros Hall. destruct (for_each _ _ _) as [day|e] eqn:E; [eauto|].
        apply Day_loop_Raise in E as (k & x & y & Hlt & Hp & Hl); try done.
        destruct (Hall k x y Hlt Hp) as [l Hl']. congruence.
Qed.

Lemma Day_assimilate_bands_witness :
  ∃ day, Day_assimilate object_bool two_band_day windy_day = Ok day ∧
         length (levels day) = 2%nat.
Proof.
  destruct (Day_assimilate_bands object_bool two_band_day windy_day eq_refl eq_refl)
    as (_ & _ & H).
  destruct H as [Hshape Hex]; [split; discriminate|].
  destruct Hex as [day Hday].
  { intros k x y Hk [Hx Hy].
    destruct k as [|[|k]]; simpl in *; [| |lia];
      injection Hx as <-; injection Hy as <-; eexists; reflexivity. }
  exists day. split; [exact Hday|].
  apply Hshape in Hday as (_ & _ & Hlen & _). exact Hlen.
Defined.

(** C5: merging two day records whose dates differ or whose regions differ
    raises the ValueError 'Incompatible days' (IncompatibleMerge), and no
    record comes out of the call. *)
Theorem Day_assimilate_incompatible (Data_bool : Data → bool) (A B : Day) :
  date A ≠ date B ∨ region A ≠ region B →
  (∃ e, Day_assimilate Data_bool A B = Raise e ∧ IncompatibleMerge e) ∧
  ∀ day, Day_assimilate Data_bool A B ≠ Ok day.
Proof.
  intros Hne.
  assert (Day_assimilate Data_bool A B = Raise (ValueError "Incompatible days")) as ->.
  { unfold Day_assimilate. destruct Hne as [Hne|Hne].
    - by rewrite (bool_decide_eq_true_2 _ Hne).
    - rewrite (bool_decide_eq_true_2 (region A ≠ region B) Hne).
      by rewrite orb_true_r. }
  split; [by eexists | done].
Qed.

Lemma Day_assimilate_incompatible_witness :
  ∃ e, Day_assimilate object_bool lowland_day later_day = Raise e ∧ IncompatibleMerge e.
Proof.
  apply (Day_assimilate_incompatible object_bool lowland_day later_day).
  left. discriminate.
Defined.

(** ** Commutativity of the merge *)

Section Commutativity.
Variable Data_bool : Data → bool.

Lemma Level_assimilate_attr_comm (x y level : Level) (attr : Attr) :
  Level_assimilate_attr Data_bool x y level attr =
  Level_assimilate_attr Data_bool y x level attr.
Proof.
  unfold Level_assimilate_attr, slot_or.
  destruct (slot_bool Data_bool (getattr x attr)),
           (slot_bool Data_bool (getattr y attr)); reflexivity.
Qed.

Lemma Level_assimilate_swap (x y : Level) :
  numeric_compatible x y →
  Level_assimilate Data_bool x y = Level_assimilate Data_bool y x.
Proof.
  intros (Hf & Hr & Hi). unfold Level_assimilate.
  rewrite (max_or_not_none_comm _ _ Hf), (max_or_not_none_comm _ _ Hr),
          (max_or_not_none_comm _ _ Hi).
  destruct (max_or_not_none (floor y) (floor x)) as [vf|]; [|done].
  destruct (max_or_not_none (roof y) (roof x)) as [vr|]; [|done].
  destruct (max_or_not_none (index y) (index x)) as [vi|]; [|done].
  rewrite !bind_Ok. apply for_each_ext. intros a s _. apply Level_assimilate_attr_comm.
Qed.

Lemma paired_swap (A B : Day) (k : nat) (x y : Level) :
  paired A B k x y ↔ paired B A k y x.
Proof. unfold paired. tauto. Qed.

(** X3: merging two day records of the same date and region gives the same
    outcome in both orders -- the same record or the same exception --
    provided no band of one side has a numeric field that is 0 where a band
    of the other side has it absent. *)
Theorem Day_assimilate_commutes (A B : Day) :
  date A = date B → region A = region B →
  (∀ x y, x ∈ levels A → y ∈ levels B → numeric_compatible x y) →
  Day_assimilate Data_bool A B = Day_assimilate Data_bool B A.
Proof.
  intros Hd Hr Hnum.
  destruct (decide (levels A = [])) as [Ha|Ha]; destruct (decide (levels B = [])) as [Hb|Hb].
  - unfold Day_assimilate. rewrite !bool_decide_eq_false_2 by (intros H; done).
    rewrite Ha, Hb. simpl. by rewrite Hd, Hr.
  - unfold Day_assimilate. rewrite !bool_decide_eq_false_2 by (intros H; done).
    apply list_bool_true in Hb. rewrite Ha, Hb. simpl. by rewrite Hd, Hr.
  - unfold Day_assimilate. rewrite !bool_decide_eq_false_2 by (intros H; done).
    apply list_bool_true in Ha. rewrite Ha, Hb. simpl. by rewrite Hd, Hr.
  - rewrite !Day_assimilate_compatible by done.
    rewrite Hd, Hr, (Nat.max_comm (length (levels B))).
    apply for_each_ext. intros i day Hi.
    unfold range in Hi. apply list_elem_of_fmap in Hi as (k & -> & _).
    destruct (Day_assimilate_step_of_nat Data_bool A B day k Ha Hb) as (x & y & Hp & ->).
    destruct (Day_assimilate_step_of_nat Data_bool B A day k Hb Ha) as (y' & x' & Hp' & ->).
    apply paired_swap in Hp'. destruct Hp as [Hx Hy], Hp' as [Hx' Hy'].
    assert (x' = x) as -> by congruence. assert (y' = y) as -> by congruence.
    rewrite Level_assimilate_swap; [done|].
    apply Hnum; eapply list_elem_of_lookup_2; eassumption.
Qed.
End Commutativity.

Lemma Day_assimilate_commutes_witness :
  Day_assimilate object_bool two_band_day windy_day
  = Day_assimilate object_bool windy_day two_band_day.
Proof.
  apply (Day_assimilate_commutes object_bool two_band_day windy_day); try reflexivity.
  intros x y Hx Hy. unfold two_band_day, windy_day in *. simpl in *.
  repeat (apply elem_of_cons in Hx as [->|Hx]); [| |by apply elem_of_nil in Hx];
  (apply elem_of_cons in Hy as [->|Hy]; [|by apply elem_of_nil in Hy]);
  (split_and!; intros [[? ?]|[? ?]]; discriminate).
Defined.

(** X2: merging two bands gives the same outcome in both orders -- the
    same band or the same exception -- unless one of [floor], [roof] and
    [index] is 0 on one side and absent on the other. *)
Theorem Level_assimilate_commutes (Data_bool : Data → bool) (x y : Level) :
  numeric_compatible x y →
  Level_assimilate Data_bool x y = Level_assimilate Data_bool y x.
Proof. apply Level_assimilate_swap. Qed.

Lemma Level_assimilate_commutes_witness :
  Level_assimilate object_bool lowland_band windy_band
  = Level_assimilate object_bool windy_band lowland_band.
Proof.
  apply (Level_assimilate_commutes object_bool lowland_band windy_band).
  split_and!; intros [[? ?]|[? ?]]; discriminate.
Defined.

(** C3: the bands [sea_level_band] and [floorless_band] have disjoint
    measurement slots and merge in both orders, but the two results differ
    in [floor]; so do the results of merging the two day records that hold
    them. *)
Theorem assimilate_order_changes_floor :
  disjoint_slots object_bool sea_level_band floorless_band ∧
  (∃ ab ba,
     Level_assimilate object_bool sea_level_band floorless_band = Ok ab ∧
     Level_assimilate object_bool floorless_band sea_level_band = Ok ba ∧
     floor ab = None ∧ floor ba = Some 0) ∧
  (∃ ab ba,
     Day_assimilate object_bool sea_level_day floorless_day = Ok ab ∧
     Day_assimilate object_bool floorless_day sea_level_day = Ok ba ∧
     floor <$> levels ab = [None] ∧ floor <$> levels ba = [Some 0]).
Proof.
  split_and!.
  - intros []; reflexivity.
  - do 2 eexists. split_and!; reflexivity.
  - do 2 eexists. split_and!; reflexivity.
Qed.

(** ** The elevation filter of to_frame *)

(** X4: with an elevation [e] other than 0 and no band index, the filter of
    [to_frame] keeps a band that has a floor, a band index and no roof 0
    exactly when [floor <= e] and the roof is absent or above [e]. *)
Theorem level_selected_elevation (e f : Z) (lvl : Level) :
  e ≠ 0 → floor lvl = Some f → roof lvl ≠ Some 0 → index lvl ≠ None →
  ∃ keep, level_selected (Some e) None lvl = Ok keep ∧
    (keep = true ↔ f ≤ e ∧ (roof lvl = None ∨ ∃ r, roof lvl = Some r ∧ e < r)).
Proof.
  intros He Hf Hr Hi. unfold level_selected, elevation_matches. simpl.
  rewrite Hf. simpl. destruct (Z.eqb_spec e 0) as [|_]; [done|]. simpl.
  rewrite (bool_decide_eq_false_2 (index lvl = None)) by done.
  destruct (Z.leb_spec f e) as [Hle|Hgt]; simpl.
  - destruct (roof lvl) as [r|] eqn:Er; simpl.
    + destruct (Z.eqb_spec r 0) as [->|_]; [done|]. simpl.
      destruct (Z.ltb_spec e r) as [Hlt|Hge]; simpl.
      * exists true. split; [done|]. split; [|done]. intros _. eauto.
      * exists false. split; [done|]. split; [done|].
        intros (_ & [?|(r' & [= <-] & ?)]); [done | lia].
    + exists true. split; [done|]. split; [|done]. auto.
  - exists false. split; [done|]. split; [done|]. intros [? _]. lia.
Qed.

Lemma level_selected_elevation_witness :
  ∃ keep, level_selected (Some 100) None lowland_band = Ok keep ∧
    (keep = true ↔
       0 ≤ 100 ∧ (roof lowland_band = None ∨ ∃ r, roof lowland_band = Some r ∧ 100 < r)).
Proof.
  apply (level_selected_elevation 100 0 lowland_band); done.
Defined.

(** C6: a band spanning 0 to 500 m contains elevation 0, yet [to_frame]
    with [elevation=0] and no band index keeps no band of it, on a day and
    on a timeline alike; with [elevation=100] the band is kept. *)
Theorem to_frame_elevation_zero_keeps_nothing :
  floor lowland_band = Some 0 ∧ roof lowland_band = Some 500 ∧
  Day_to_frame object_bool lowland_day (Some 0) None = Ok [] ∧
  Timeline_to_frame object_bool Container_bool_len lowland_timeline (Some 0) None
    = Ok (Some region_3003, []) ∧
  Timeline_to_frame object_bool (Container_bool_any (Day_bool object_bool))
                    lowland_timeline (Some 0) None
    = Ok (Some region_3003, []) ∧
  Day_to_frame object_bool lowland_day (Some 100) None
    = Ok [("0-500", level_row object_bool lowland_band)].
Proof. split_and!; reflexivity. Qed.

(** X5: [Day.to_frame] called with both an elevation and a band index raises
    the ValueError 'Only one of elevation and level_index parameters can be
    defined' (InvalidArgument), whatever the record. *)
Theorem Day_to_frame_both_filters (Data_bool : Data → bool) (self : Day) (e i : Z) :
  ∃ err, Day_to_frame Data_bool self (Some e) (Some i) = Raise err ∧ InvalidArgument err.
Proof. eexists. split; reflexivity. Qed.

(** C7: [Timeline.to_frame] called with both an elevation and a band index
    raises nothing: it returns the rows of the bands that match either
    filter.  (Only [Day.to_frame] checks that one filter at most is given.) *)
Theorem Timeline_to_frame_takes_both_filters :
  Timeline_to_frame object_bool Container_bool_len lowland_timeline (Some 100) (Some 1)
    = Ok (Some region_3003,
          [((Some sample_date, "0-500"), level_row object_bool lowland_band)]) ∧
  Timeline_to_frame object_bool (Container_bool_any (Day_bool object_bool))
                    lowland_timeline (Some 100) (Some 1)
    = Ok (Some region_3003,
          [((Some sample_date, "0-500"), level_row object_bool lowland_band)]).
Proof. split; reflexivity. Qed.

(** ** Timeline.get_region *)

Lemma mixed_timeline_deserialized :
  Timeline_deserialize fromisoformat_ymd int_of_decimal (SnowRegion_among [3003; 3010])
    mixed_payload (ClassWeather Temp) = Ok mixed_timeline.
Proof. vm_compute. reflexivity. Qed.

(** C8, as stated, fails on the timeline [mixed_timeline]: its first record
    is empty and names region 3003, its first present record names region
    3010, and [get_region] returns 3003 -- whether the truth value of a
    container is that of its length or that of any of its elements. *)
Lemma get_region_not_of_first_present :
  ¬ region_of_first_present object_bool Container_bool_len ∧
  ¬ region_of_first_present object_bool (Container_bool_any (Day_bool object_bool)).
Proof.
  split; intros H; destruct (H mixed_timeline eq_refl) as (day & Hf & Hr);
    vm_compute in Hf; injection Hf as <-; vm_compute in Hr; congruence.
Qed.

(** C8, amended: on a timeline whose truth value is true, [get_region]
    returns the region of the first record in iteration order, present or
    not; on a timeline whose truth value is false, and so on a timeline
    without records, it raises the ValueError 'No days to find region from'
    (EmptyContainerError). *)
Theorem Timeline_get_region_first_record (Timeline_bool : Timeline → bool)
    (self : Timeline) :
  Timeline_bool [] = false →
  (Timeline_bool self = true →
     ∃ key day rest, self = (key, day) :: rest ∧
       Timeline_get_region Timeline_bool self = Ok (region day)) ∧
  (Timeline_bool self = false →
     ∃ e, Timeline_get_region Timeline_bool self = Raise e ∧ EmptyContainerError e) ∧
  (∃ e, Timeline_get_region Timeline_bool [] = Raise e ∧ EmptyContainerError e).
Proof.
  intros Hnil. unfold Timeline_get_region. split_and!.
  - intros Ht. rewrite Ht. destruct self as [|[key day] rest]; [congruence|].
    by exists key, day, rest.
  - intros ->. by eexists.
  - rewrite Hnil. by eexists.
Qed.

Lemma Timeline_get_region_first_record_witness :
  Container_bool_len (K:=dt_date) (V:=Day) [] = false ∧
  ∃ key day rest, mixed_timeline = (key, day) :: rest ∧
    Timeline_get_region Container_bool_len mixed_timeline = Ok (region day).
Proof.
  split; [reflexivity|].
  apply (Timeline_get_region_first_record Container_bool_len mixed_timeline);
    reflexivity.
Defined.

(** X6: on a timeline whose records all name the region [r], [get_region]
    returns [r], which is also the region of the first present record when
    there is one. *)
Theorem Timeline_get_region_shared (Data_bool : Data → bool)
    (Timeline_bool : Timeline → bool) (self : Timeline) (r : option SnowRegion) :
  Timeline_bool [] = false → Timeline_bool self = true →
  (∀ day, day ∈ Container_iter self → region day = r) →
  Timeline_get_region Timeline_bool self = Ok r ∧
  ∀ day, first_present Data_bool self = Some day → region day = r.
Proof.
  intros Hnil Ht Hall. split.
  - unfold Timeline_get_region. rewrite Ht.
    destruct self as [|[key day] rest]; [congruence|]. simpl. f_equal.
    apply Hall. unfold Container_iter. simpl. apply list_elem_of_here.
  - intros day Hf. apply Hall. unfold first_present in Hf.
    apply find_some in Hf as [Hin _]. by apply list_elem_of_In.
Qed.

Lemma Timeline_get_region_shared_witness :
  Timeline_get_region Container_bool_len lowland_timeline = Ok (Some region_3003).
Proof.
  apply (Timeline_get_region_shared object_bool Container_bool_len lowland_timeline
           (Some region_3003)); try reflexivity.
  intros day Hday. unfold lowland_timeline, Container_iter in Hday. simpl in Hday.
  apply elem_of_cons in Hday as [->|Hday]; [reflexivity | by apply elem_of_nil in Hday].
Defined.

(** ** Deserialization *)

Lemma dict_getitem_Ok {V : Type} (json : gmap string V) (key : string) (v : V) :
  dict_getitem json key = Ok v ↔ json !! key = Some v.
Proof. unfold dict_getitem. destruct (json !! key); split; congruence. Qed.

Lemma dict_getitem_insert_ne {V : Type} (json : gmap string V) (k key : string) (v : V) :
  k ≠ key → dict_getitem (<[k := v]> json) key = dict_getitem json key.
Proof. intros Hne. unfold dict_getitem. by rewrite lookup_insert_ne. Qed.

Lemma dict_getitem_delete_ne {V : Type} (json : gmap string V) (k key : string) :
  k ≠ key → dict_getitem (delete k json) key = dict_getitem json key.
Proof. intros Hne. unfold dict_getitem. by rewrite lookup_delete_ne. Qed.

(** C9: [Data.deserialize] succeeds exactly on the payloads that have the
    six keys Minimum, Perc05, FirstQuartile, Median, ThirdQuartile and
    Maximum, and then [perc95], like [perc05], holds the value under
    'Perc05'; a value under 'Perc95' is never read: setting it or removing
    it changes nothing. *)
Theorem Data_deserialize_perc95 (cls : DataType) (json : ApsJsonData) :
  (∀ data, Data_deserialize cls json = Ok data ↔
     ∃ v00 v05 v25 v50 v75 v100,
       json !! "Minimum" = Some v00 ∧ json !! "Perc05" = Some v05 ∧
       json !! "FirstQuartile" = Some v25 ∧ json !! "Median" = Some v50 ∧
       json !! "ThirdQuartile" = Some v75 ∧ json !! "Maximum" = Some v100 ∧
       data = mkData cls (Some v00) (Some v05) (Some v25) (Some v50) (Some v75)
                     (Some v05) (Some v100)) ∧
  (∀ data, Data_deserialize cls json = Ok data →
     perc95 data = perc05 data ∧ perc95 data = json !! "Perc05") ∧
  (∀ v, Data_deserialize cls (<["Perc95" := v]> json) = Data_deserialize cls json) ∧
  Data_deserialize cls (delete "Perc95" json) = Data_deserialize cls json.
Proof.
  assert (∀ data, Data_deserialize cls json = Ok data ↔
     ∃ v00 v05 v25 v50 v75 v100,
       json !! "Minimum" = Some v00 ∧ json !! "Perc05" = Some v05 ∧
       json !! "FirstQuartile" = Some v25 ∧ json !! "Median" = Some v50 ∧
       json !! "ThirdQuartile" = Some v75 ∧ json !! "Maximum" = Some v100 ∧
       data = mkData cls (Some v00) (Some v05) (Some v25) (Some v50) (Some v75)
                     (Some v05) (Some v100)) as Hchar.
  { intros data. unfold Data_deserialize, dict_getitem. split.
    - destruct (json !! "Minimum") as [v00|]; [|done].
      destruct (json !! "Perc05") as [v05|]; [|done].
      destruct (json !! "FirstQuartile") as [v25|]; [|done].
      destruct (json !! "Median") as [v50|]; [|done].
      destruct (json !! "ThirdQuartile") as [v75|]; [|done].
      destruct (json !! "Maximum") as [v100|]; [|done].
      simpl. intros [= <-]. by exists v00, v05, v25, v50, v75, v100.
    - intros (v00 & v05 & v25 & v50 & v75 & v100 & -> & -> & -> & -> & -> & -> & ->).
      reflexivity. }
  split_and!.
  - exact Hchar.
  - intros data (v00 & v05 & v25 & v50 & v75 & v100 & _ & H05 & _ & _ & _ & _ & ->)%Hchar.
    by rewrite H05.
  - intros v. unfold Data_deserialize. by rewrite !dict_getitem_insert_ne.
  - unfold Data_deserialize. by rewrite !dict_getitem_delete_ne.
Qed.

(** C10: on a payload whose 'TimeLine' is an empty list,
    [Timeline.deserialize] returns a timeline without records, for every
    [data_type], while [Aps.deserialize] raises the ValueError of
    [get_region], 'No days to find region from', and returns no [Aps]. *)
Theorem Aps_deserialize_empty_timeline (Timeline_bool : Timeline → bool)
    (fromisoformat : string → result dt_date) (int_of_str : string → result Z)
    (SnowRegion_new : Z → result SnowRegion)
    (json : ApsJsonFull) (data_type : PyType) :
  Timeline_bool [] = false →
  json !! "TimeLine" = Some [] →
  Timeline_deserialize fromisoformat int_of_str SnowRegion_new json data_type = Ok [] ∧
  (∃ e, Aps_deserialize Timeline_bool fromisoformat int_of_str SnowRegion_new
                        json data_type = Raise e ∧ EmptyContainerError e) ∧
  ∀ aps, Aps_deserialize Timeline_bool fromisoformat int_of_str SnowRegion_new
                         json data_type ≠ Ok aps.
Proof.
  intros Hnil Hjson.
  assert (Timeline_deserialize fromisoformat int_of_str SnowRegion_new json data_type
          = Ok []) as Ht.
  { unfold Timeline_deserialize, dict_getitem. by rewrite Hjson. }
  assert (Aps_deserialize Timeline_bool fromisoformat int_of_str SnowRegion_new
            json data_type = Raise (ValueError "No days to find region from")) as Ha.
  { unfold Aps_deserialize. rewrite Ht. simpl.
    unfold Timeline_get_region. by rewrite Hnil. }
  split_and!; [done | by eexists | by rewrite Ha].
Qed.

Lemma Aps_deserialize_empty_timeline_witness :
  Timeline_deserialize fromisoformat_ymd int_of_decimal (SnowRegion_among [3003; 3010])
    empty_payload (ClassWeather Temp) = Ok [] ∧
  ∃ e, Aps_deserialize Container_bool_len fromisoformat_ymd int_of_decimal
         (SnowRegion_among [3003; 3010]) empty_payload (ClassWeather Temp) = Raise e ∧
       EmptyContainerError e.
Proof.
  destruct (Aps_deserialize_empty_timeline Container_bool_len fromisoformat_ymd
              int_of_decimal (SnowRegion_among [3003; 3010]) empty_payload
              (ClassWeather Temp)) as (H1 & H2 & _); [reflexivity | reflexivity |].
  split; assumption.
Defined.

(** ** More on Level.assimilate *)

Section LevelMerge.
Variable Data_bool : Data → bool.

Lemma populated_merged (x y l : Level) (attr : Attr) :
  getattr l attr = merged_slot Data_bool x y attr →
  populated Data_bool l attr =
  xorb (populated Data_bool x attr) (populated Data_bool y attr).
Proof.
  unfold populated at 1. intros ->. unfold merged_slot.
  destruct (populated Data_bool x attr) eqn:Hx, (populated Data_bool y attr) eqn:Hy;
    simpl; done.
Qed.

Lemma Level_bool_populated (l : Level) :
  Level_bool Data_bool l = true ↔ ∃ attr, populated Data_bool l attr = true.
Proof.
  unfold Level_bool. rewrite existsb_exists. split.
  - intros (s & Hin & Hs). apply list_elem_of_In, list_elem_of_fmap in Hin as (a & -> & _).
    by exists a.
  - intros (a & Ha). exists (getattr l a). split; [|done].
    apply list_elem_of_In, list_elem_of_fmap. exists a. split; [done|].
    apply WEATHER_ATTRS_values_all.
Qed.

Lemma assimilate_attrs_first self other pre attr post level :
  (∀ b, b ∈ pre → conflict Data_bool self other b = false) →
  conflict Data_bool self other attr = true →
  for_each (Level_assimilate_attr Data_bool self other) (pre ++ attr :: post) level =
  Raise (ValueError ("Both levels have valid " +:+ attr_name attr +:+ " data")).
Proof.
  intros Hpre Hattr. rewrite for_each_app.
  destruct (for_each _ pre level) as [level'|e] eqn:E.
  - rewrite bind_Ok. simpl.
    destruct (Level_assimilate_attr_cases Data_bool self other level' attr)
      as [[_ ->]|[Hc _]]; [done | congruence].
  - apply assimilate_attrs_Raise in E as (b & Hb & Hc & _).
    rewrite Hpre in Hc by done. done.
Qed.

Lemma Level_assimilate_Ok_iff (x y l : Level) :
  Level_assimilate Data_bool x y = Ok l ↔
  disjoint_slots Data_bool x y ∧
  max_or_not_none (floor x) (floor y) = Ok (floor l) ∧
  max_or_not_none (roof x) (roof y) = Ok (roof l) ∧
  max_or_not_none (index x) (index y) = Ok (index l) ∧
  ∀ attr, getattr l attr = merged_slot Data_bool x y attr.
Proof.
  split; [apply Level_assimilate_Ok|].
  intros (Hd & Hf & Hr & Hi & Hg).
  destruct (Level_assimilate_disjoint Data_bool x y Hd) as [l' Hl'].
  rewrite Hl'. f_equal.
  apply Level_assimilate_Ok in Hl' as (_ & Hf' & Hr' & Hi' & Hg').
  apply Level_ext; try congruence.
  all: intros attr; by rewrite Hg, Hg'.
Qed.

Lemma max_or_not_none_assoc (x y z xy yz : option Z) :
  max_or_not_none x y = Ok xy → max_or_not_none y z = Ok yz →
  max_or_not_none xy z = max_or_not_none x yz.
Proof.
  rewrite !max_or_not_none_exact. intros [= <-] [= <-]. f_equal.
  destruct x as [a|], y as [b|], z as [c|];
    repeat (case_bool_decide; simplify_eq/=); try done; try (f_equal; lia).
Qed.

Lemma merged_slot_assoc (a b c ab bc : Level) (attr : Attr) :
  conflict Data_bool a b attr = false →
  conflict Data_bool b c attr = false →
  conflict Data_bool a c attr = false →
  getattr ab attr = merged_slot Data_bool a b attr →
  getattr bc attr = merged_slot Data_bool b c attr →
  merged_slot Data_bool ab c attr = merged_slot Data_bool a bc attr.
Proof.
  intros Hab Hbc Hac Gab Gbc.
  pose proof (populated_merged a b ab attr Gab) as Pab.
  pose proof (populated_merged b c bc attr Gbc) as Pbc.
  unfold merged_slot at 1 2. rewrite Pab, Pbc, Gab, Gbc.
  unfold merged_slot, conflict in *.
  destruct (populated Data_bool a attr), (populated Data_bool b attr),
           (populated Data_bool c attr); simpl in *; congruence.
Qed.
End LevelMerge.

(** X7: merging two bands succeeds exactly when no measurement slot is
    populated on both sides, and then the merged band holds, slot by slot,
    the [Data] of the side that populates it and [None] where neither does. *)
Theorem Level_assimilate_keeps_slots (Data_bool : Data → bool) (self other : Level) :
  (disjoint_slots Data_bool self other ↔
   ∃ level, Level_assimilate Data_bool self other = Ok level) ∧
  ∀ level attr, Level_assimilate Data_bool self other = Ok level →
    (populated Data_bool self attr = true → getattr level attr = getattr self attr) ∧
    (populated Data_bool other attr = true → getattr level attr = getattr other attr) ∧
    (populated Data_bool self attr = false → populated Data_bool other attr = false →
       getattr level attr = None).
Proof.
  split.
  - split; [apply Level_assimilate_disjoint|].
    intros [level Hl]. by apply Level_assimilate_Ok in Hl as (Hd & _).
  - intros level attr (Hd & _ & _ & _ & Hg)%Level_assimilate_Ok.
    specialize (Hd attr). specialize (Hg attr). unfold conflict in Hd.
    rewrite Hg. unfold merged_slot.
    destruct (populated Data_bool self attr), (populated Data_bool other attr);
      simpl in *; split_and!; intros; congruence.
Qed.

(** X8: when some slot is populated on both sides, the ValueError names the
    first such attribute in the order of [WEATHER_ATTRS]: precip,
    precip_max, temp, wind, snow_depth, new_snow, new_snow_max. *)
Theorem Level_assimilate_names_first_conflict (Data_bool : Data → bool)
    (self other : Level) (pre post : list Attr) (attr : Attr) :
  WEATHER_ATTRS_values = pre ++ attr :: post →
  (∀ b, b ∈ pre → conflict Data_bool self other b = false) →
  conflict Data_bool self other attr = true →
  Level_assimilate Data_bool self other =
  Raise (ValueError ("Both levels have valid " +:+ attr_name attr +:+ " data")).
Proof.
  intros Hsplit Hpre Hattr. unfold Level_assimilate.
  destruct (max_or_not_none_total (floor self) (floor other)) as [vf ->].
  destruct (max_or_not_none_total (roof self) (roof other)) as [vr ->].
  destruct (max_or_not_none_total (index self) (index other)) as [vi ->].
  rewrite !bind_Ok, Hsplit. by apply assimilate_attrs_first.
Qed.

Lemma Level_assimilate_names_first_conflict_witness :
  Level_assimilate object_bool temp_wind_band temp_wind_band =
  Raise (ValueError "Both levels have valid temp data").
Proof.
  apply (Level_assimilate_names_first_conflict object_bool temp_wind_band temp_wind_band
           [precip_; precip_max_] [wind_; snow_depth_; new_snow_; new_snow_max_] temp_).
  - reflexivity.
  - intros b [->|[->|Hb%elem_of_nil]%elem_of_cons]%elem_of_cons; [reflexivity|reflexivity|done].
  - reflexivity.
Defined.

Lemma Level_assimilate_assoc (Data_bool : Data → bool) (a b c r : Level) :
  (∃ ab, Level_assimilate Data_bool a b = Ok ab ∧ Level_assimilate Data_bool ab c = Ok r) ↔
  (∃ bc, Level_assimilate Data_bool b c = Ok bc ∧ Level_assimilate Data_bool a bc = Ok r).
Proof.
  split.
  - intros (ab & (Dab & Fab & Rab & Iab & Gab)%Level_assimilate_Ok_iff
               & (Dabc & Fr & Rr & Ir & Gr)%Level_assimilate_Ok_iff).
    assert (∀ attr, conflict Data_bool a b attr = false ∧
                    conflict Data_bool b c attr = false ∧
                    conflict Data_bool a c attr = false) as Hpair.
    { intros attr. specialize (Dab attr). specialize (Dabc attr).
      unfold conflict in *. rewrite (populated_merged _ a b ab attr (Gab attr)) in Dabc.
      destruct (populated Data_bool a attr), (populated Data_bool b attr),
               (populated Data_bool c attr); simpl in *; done. }
    destruct (Level_assimilate_disjoint Data_bool b c) as [bc Hbc].
    { intros attr. apply Hpair. }
    exists bc. split; [done|].
    apply Level_assimilate_Ok_iff in Hbc as (Dbc & Fbc & Rbc & Ibc & Gbc).
    apply Level_assimilate_Ok_iff. split_and!.
    + intros attr. destruct (Hpair attr) as (Hab & Hbc & Hac).
      unfold conflict in *. rewrite (populated_merged _ b c bc attr (Gbc attr)).
      destruct (populated Data_bool a attr), (populated Data_bool b attr),
               (populated Data_bool c attr); simpl in *; done.
    + by rewrite <-(max_or_not_none_assoc _ _ _ _ _ Fab Fbc).
    + by rewrite <-(max_or_not_none_assoc _ _ _ _ _ Rab Rbc).
    + by rewrite <-(max_or_not_none_assoc _ _ _ _ _ Iab Ibc).
    + intros attr. rewrite Gr. destruct (Hpair attr) as (? & ? & ?).
      apply (merged_slot_assoc Data_bool a b c ab bc attr); auto.
  - intros (bc & (Dbc & Fbc & Rbc & Ibc & Gbc)%Level_assimilate_Ok_iff
               & (Dabc & Fr & Rr & Ir & Gr)%Level_assimilate_Ok_iff).
    assert (∀ attr, conflict Data_bool a b attr = false ∧
                    conflict Data_bool b c attr = false ∧
                    conflict Data_bool a c attr = false) as Hpair.
    { intros attr. specialize (Dbc attr). specialize (Dabc attr).
      unfold conflict in *. rewrite (populated_merged _ b c bc attr (Gbc attr)) in Dabc.
      destruct (populated Data_bool a attr), (populated Data_bool b attr),
               (populated Data_bool c attr); simpl in *; done. }
    destruct (Level_assimilate_disjoint Data_bool a b) as [ab Hab].
    { intros attr. apply Hpair. }
    exists ab. split; [done|].
    apply Level_assimilate_Ok_iff in Hab as (Dab & Fab & Rab & Iab & Gab).
    apply Level_assimilate_Ok_iff. split_and!.
    + intros attr. destruct (Hpair attr) as (Hab & Hbc & Hac).
      unfold conflict in *. rewrite (populated_merged _ a b ab attr (Gab attr)).
      destruct (populated Data_bool a attr), (populated Data_bool b attr),
               (populated Data_bool c attr); simpl in *; done.
    + by rewrite (max_or_not_none_assoc _ _ _ _ _ Fab Fbc).
    + by rewrite (max_or_not_none_assoc _ _ _ _ _ Rab Rbc).
    + by rewrite (max_or_not_none_assoc _ _ _ _ _ Iab Ibc).
    + intros attr. rewrite Gr. destruct (Hpair attr) as (? & ? & ?).
      symmetry. apply (merged_slot_assoc Data_bool a b c ab bc attr); auto.
Qed.

(** X9: merging three bands gives the same band whichever two are merged
    first: [(a + b) + c] succeeds with a result [r] exactly when
    [a + (b + c)] does. *)
Theorem Level_assimilate_associative (Data_bool : Data → bool) (a b c r : Level) :
  (∃ ab, Level_assimilate Data_bool a b = Ok ab ∧ Level_assimilate Data_bool ab c = Ok r) ↔
  (∃ bc, Level_assimilate Data_bool b c = Ok bc ∧ Level_assimilate Data_bool a bc = Ok r).
Proof. apply Level_assimilate_assoc. Qed.

(** X10: a band fresh from [Level()] is neutral for the merge. Merged into
    a band whose slots each hold [None] or a true [Data], it gives that band
    back: always when it is the caller, and when it is the argument provided
    none of [floor], [roof], [index] of the band is 0. *)
Theorem Level_assimilate_fresh_level (Data_bool : Data → bool) (a : Level) :
  (∀ attr d, getattr a attr = Some d → Data_bool d = true) →
  Level_assimilate Data_bool Level_init a = Ok a ∧
  (floor a ≠ Some 0 → roof a ≠ Some 0 → index a ≠ Some 0 →
   Level_assimilate Data_bool a Level_init = Ok a).
Proof.
  intros Hslots.
  assert (∀ attr, populated Data_bool a attr = false → getattr a attr = None) as Hnone.
  { intros attr Hp. unfold populated, slot_bool in Hp.
    destruct (getattr a attr) as [d|] eqn:E; [|done].
    rewrite (Hslots attr d E) in Hp. done. }
  assert (∀ attr, populated Data_bool Level_init attr = false) as Hinit.
  { by intros []. }
  split.
  - apply Level_assimilate_Ok_iff. split_and!; try by rewrite max_or_not_none_exact.
    + intros attr. unfold conflict. by rewrite Hinit.
    + intros attr. unfold merged_slot. rewrite Hinit. simpl.
      destruct (populated Data_bool a attr) eqn:Hp; [done | by apply Hnone].
  - intros Hf Hr Hi. apply Level_assimilate_Ok_iff. split_and!.
    + intros attr. unfold conflict. by rewrite Hinit, andb_false_r.
    + rewrite max_or_not_none_exact. simpl. destruct (floor a) as [n|]; [|done].
      by rewrite bool_decide_eq_false_2 by congruence.
    + rewrite max_or_not_none_exact. simpl. destruct (roof a) as [n|]; [|done].
      by rewrite bool_decide_eq_false_2 by congruence.
    + rewrite max_or_not_none_exact. simpl. destruct (index a) as [n|]; [|done].
      by rewrite bool_decide_eq_false_2 by congruence.
    + intros attr. unfold merged_slot. rewrite Hinit, xorb_false_r.
      destruct (populated Data_bool a attr) eqn:Hp; [done | by apply Hnone].
Qed.

Lemma Level_assimilate_fresh_level_witness :
  Level_assimilate object_bool Level_init upland_band = Ok upland_band ∧
  Level_assimilate object_bool upland_band Level_init = Ok upland_band.
Proof.
  destruct (Level_assimilate_fresh_level object_bool upland_band) as [H1 H2]; [done|].
  split; [exact H1 | apply H2; discriminate].
Defined.

Lemma Level_bool_merged (Data_bool : Data → bool) (a b l : Level) :
  Level_assimilate Data_bool a b = Ok l →
  Level_bool Data_bool l = Level_bool Data_bool a || Level_bool Data_bool b.
Proof.
  intros (Hd & _ & _ & _ & Hg)%Level_assimilate_Ok_iff.
  assert (∀ attr, populated Data_bool l attr =
                  populated Data_bool a attr || populated Data_bool b attr) as Hp.
  { intros attr. rewrite (populated_merged _ a b l attr (Hg attr)).
    specialize (Hd attr). unfold conflict in Hd.
    by destruct (populated Data_bool a attr), (populated Data_bool b attr). }
  apply eq_true_iff_eq. rewrite orb_true_iff, !Level_bool_populated. split.
  - intros [attr Ha]. rewrite Hp in Ha. apply orb_true_iff in Ha as [Ha|Ha]; eauto.
  - intros [[attr Ha]|[attr Ha]]; exists attr; rewrite Hp, Ha; by rewrite ?orb_true_r.
Qed.

(** X11: a merged band is present exactly when one of the two bands is:
    [bool(a.assimilate(b)) == (bool(a) or bool(b))]. *)
Theorem Level_assimilate_presence (Data_bool : Data → bool) (a b l : Level) :
  Level_assimilate Data_bool a b = Ok l →
  Level_bool Data_bool l = Level_bool Data_bool a || Level_bool Data_bool b.
Proof. apply Level_bool_merged. Qed.

Lemma Level_assimilate_presence_witness :
  ∃ l, Level_assimilate object_bool lowland_band windy_band = Ok l ∧
       Level_bool object_bool l
       = Level_bool object_bool lowland_band || Level_bool object_bool windy_band.
Proof.
  eexists. split; [vm_compute; reflexivity|].
  apply Level_assimilate_presence. vm_compute. reflexivity.
Defined.

(** ** More on deserialization *)

Lemma WEATHER_ATTRS_get_total (cls : DataType) : ∃ attr, WEATHER_ATTRS_get cls = Some attr.
Proof. destruct cls; eexists; reflexivity. Qed.

Lemma Level_deserialize_Ok (json : ApsJsonData) (data_type : PyType) (level : Level) :
  Level_deserialize json data_type = Ok level →
  ∃ cls attr data bottom top band,
    data_type = ClassWeather cls ∧ WEATHER_ATTRS_get cls = Some attr ∧
    json !! "ElevationBottom" = Some bottom ∧ json !! "ElevationTop" = Some top ∧
    json !! "ElevationBand" = Some band ∧ Data_deserialize cls json = Ok data ∧
    floor level = Some bottom ∧
    roof level = (if bool_decide (top = 0) then None else Some top) ∧
    index level = Some band ∧
    getattr level attr = Some data ∧
    ∀ attr', attr' ≠ attr → getattr level attr' = None.
Proof.
  unfold Level_deserialize.
  destruct data_type as [| |cls| | |]; simpl; try done.
  - unfold dict_getitem.
    destruct (json !! "ElevationBottom") as [bottom|]; [|done].
    destruct (json !! "ElevationTop") as [top|] eqn:Etop; [|done]. simpl.
    assert ((if negb (top =? 0) then Ok (Some top) else Ok None)
            = Ok (if bool_decide (top = 0) then None else Some top)) as ->.
    { destruct (Z.eqb_spec top 0) as [->|Hne]; simpl; [done|].
      by rewrite bool_decide_eq_false_2. }
    simpl. destruct (json !! "ElevationBand") as [band|]; [|done]. simpl.
    destruct (WEATHER_ATTRS_get_total cls) as [attr Hattr]. rewrite Hattr.
    destruct (Data_deserialize cls json) as [data|] eqn:Edata; [|done]. simpl.
    intros [= <-]. exists cls, attr, data, bottom, top, band.
    rewrite floor_setattr, roof_setattr, index_setattr, getattr_setattr, decide_True by done.
    split_and!; try done.
    intros attr' Hne. rewrite getattr_setattr, decide_False by done. by destruct attr'.
  - unfold dict_getitem.
    destruct (json !! "ElevationBottom"); [|done].
    destruct (json !! "ElevationTop") as [top|]; [|done]. simpl.
    destruct (negb (top =? 0)); simpl; destruct (json !! "ElevationBand"); done.
Qed.

(** X12: [Level.deserialize] returns a band exactly for one of the seven
    weather classes and a payload holding the three elevation keys and the
    statistics; the band then has the floor and the band index of the
    payload, a roof that is [None] when 'ElevationTop' is 0, the
    deserialized [Data] in the slot of the class and [None] in the other six
    slots. *)
Theorem Level_deserialize_band (json : ApsJsonData) (data_type : PyType) (level : Level) :
  Level_deserialize json data_type = Ok level ↔
  ∃ cls attr data bottom top band,
    data_type = ClassWeather cls ∧ WEATHER_ATTRS_get cls = Some attr ∧
    json !! "ElevationBottom" = Some bottom ∧ json !! "ElevationTop" = Some top ∧
    json !! "ElevationBand" = Some band ∧ Data_deserialize cls json = Ok data ∧
    floor level = Some bottom ∧
    roof level = (if bool_decide (top = 0) then None else Some top) ∧
    index level = Some band ∧
    getattr level attr = Some data ∧
    ∀ attr', attr' ≠ attr → getattr level attr' = None.
Proof.
  split; [apply Level_deserialize_Ok|].
  intros (cls & attr & data & bottom & top & band & -> & Hattr & Hb & Ht & Hi & Hd
          & Hf & Hr & Hx & Hg & Hnone).
  destruct (Level_deserialize json (ClassWeather cls)) as [level'|e] eqn:E.
  - f_equal.
    apply Level_deserialize_Ok in E
      as (cls' & attr' & data' & bottom' & top' & band' & [= <-] & Hattr' & Hb' & Ht' & Hi'
          & Hd' & Hf' & Hr' & Hx' & Hg' & Hnone').
    simplify_eq. apply Level_ext; try congruence.
    intros a. destruct (decide (a = attr)) as [->|Hne]; [congruence|].
    by rewrite Hnone, Hnone'.
  - exfalso. revert E. unfold Level_deserialize, dict_getitem. simpl.
    rewrite Hb, Ht. simpl.
    destruct (negb (top =? 0)); simpl; rewrite Hi; simpl; rewrite Hattr, Hd; done.
Qed.

Section DayDeserialize.
Variable fromisoformat : string → result dt_date.
Variable int_of_str : string → result Z.
Variable SnowRegion_new : Z → result SnowRegion.

Lemma append_levels_loop (data_type : PyType) (l : list ApsJsonData) (day0 day : Day) :
  for_each (λ day level, lvl ← Level_deserialize level data_type; Ok (levels_append day lvl))
           l day0 = Ok day ↔
  ∃ lvls, Forall2 (λ band lvl, Level_deserialize band data_type = Ok lvl) l lvls ∧
          day = set_levels day0 (levels day0 ++ lvls).
Proof.
  revert day0. induction l as [|band l IH]; intros day0; simpl.
  - split.
    + intros [= <-]. exists []. split; [constructor|].
      destruct day0; unfold set_levels; simpl. by rewrite app_nil_r.
    + intros (lvls & Hall & ->). apply Forall2_nil_inv_l in Hall as ->.
      destruct day0; unfold set_levels; simpl. by rewrite app_nil_r.
  - destruct (Level_deserialize band data_type) as [lvl|e] eqn:E; simpl.
    + rewrite IH. split.
      * intros (lvls & Hall & ->). exists (lvl :: lvls). split; [by constructor|].
        unfold levels_append, set_levels. simpl. by rewrite <-app_assoc.
      * intros (lvls & Hall & ->).
        apply Forall2_cons_inv_l in Hall as (lvl' & lvls' & Hl & Hall & ->).
        assert (lvl' = lvl) as -> by congruence.
        exists lvls'. split; [done|].
        unfold levels_append, set_levels. simpl. by rewrite <-app_assoc.
    + split; [done|]. intros (lvls & Hall & _).
      apply Forall2_cons_inv_l in Hall as (lvl' & lvls' & Hl & _). congruence.
Qed.

Local Ltac no_day :=
  split; [done|];
  intros (?&?&?&?&?&?&?&?&?&?&?&?&?&?&?&?&?&?&?&?); simplify_eq; congruence.

(** What [Day.deserialize] reads of a day: the first region under
    'Regions', the date under 'FormattedDate', the region id and the
    elevation data of that region. *)
Lemma Day_deserialize_Ok_iff (json : ApsJsonDay) (data_type : PyType) (day : Day) :
  Day_deserialize fromisoformat int_of_str SnowRegion_new json data_type = Ok day ↔
  ∃ r rest s d id n reg ev l lvls,
    json !! "Regions" = Some (DayList (r :: rest)) ∧
    json !! "FormattedDate" = Some (DayStr s) ∧
    fromisoformat (str_prefix 10 s) = Ok d ∧
    r !! "RegionId" = Some (RegionStr id) ∧ int_of_str id = Ok n ∧
    SnowRegion_new n = Ok reg ∧
    r !! "ElevationData" = Some ev ∧
    (ev = RegionList l ∨ ev = RegionStr "" ∧ l = []) ∧
    Forall2 (λ band lvl, Level_deserialize band data_type = Ok lvl) l lvls ∧
    day = mkDay (Some d) (Some reg) lvls.
Proof.
  unfold Day_deserialize, dict_getitem.
  destruct (json !! "Regions") as [[sr|br|[|r rest]]|] eqn:Eregions; simpl;
    try by no_day.
  - (* a string under 'Regions' *)
    destruct sr; simpl; [by no_day|].
    destruct (json !! "FormattedDate") as [[s| |]|]; simpl; try by no_day.
    destruct (fromisoformat _); simpl; by no_day.
  - (* a bool under 'Regions' *)
    destruct br; simpl; [|by no_day].
    destruct (json !! "FormattedDate") as [[s| |]|]; simpl; try by no_day.
    destruct (fromisoformat _); simpl; by no_day.
  - (* a list of regions *)
    destruct (json !! "FormattedDate") as [[s| |]|] eqn:Edate; simpl; try by no_day.
    destruct (fromisoformat (str_prefix 10 s)) as [d|] eqn:Ed; simpl; [|by no_day].
    unfold getitem. simpl.
    destruct (r !! "RegionId") as [[id|]|] eqn:Eid; simpl; try by no_day.
    destruct (int_of_str id) as [n|] eqn:En; simpl; [|by no_day].
    destruct (SnowRegion_new n) as [reg|] eqn:Ereg; simpl; [|by no_day].
    destruct (r !! "ElevationData") as [ev|] eqn:Eev; simpl; [|by no_day].
    destruct ev as [se|l]; simpl.
    + destruct se as [|c se]; simpl.
      * split.
        -- intros [= <-]. exists r, rest, s, d, id, n, reg, (RegionStr ""), [], [].
           split_and!; first [done | by right | constructor].
        -- intros (r' & rest' & s' & d' & id' & n' & reg' & ev' & l & lvls & ? & ? & ?
                   & ? & ? & ? & ? & Hev & Hall & ->). simplify_eq.
           destruct Hev as [?|[_ ->]]; [done|].
           apply Forall2_nil_inv_l in Hall as ->.
           unfold set_region, set_date, Day_init; simpl; congruence.
      * split.
        -- destruct (check_data_type data_type); done.
        -- intros (r' & rest' & s' & d' & id' & n' & reg' & ev' & l & lvls & ? & ? & ?
                   & ? & ? & ? & ? & Hev & Hall & ->). simplify_eq.
           destruct Hev as [?|[? _]]; done.
    + destruct l as [|band l]; simpl.
      * split.
        -- intros [= <-]. exists r, rest, s, d, id, n, reg, (RegionList []), [], [].
           split_and!; first [done | by left | constructor].
        -- intros (r' & rest' & s' & d' & id' & n' & reg' & ev' & l & lvls & ? & ? & ?
                   & ? & ? & ? & ? & Hev & Hall & ->). simplify_eq.
           destruct Hev as [[= <-]|[? _]]; try done.
           apply Forall2_nil_inv_l in Hall as ->.
           unfold set_region, set_date, Day_init; simpl; congruence.
      * pose proof (append_levels_loop data_type (band :: l)
                      (mkDay (Some d) (Some reg) []) day) as Hloop.
        simpl in Hloop. unfold set_region, set_date, Day_init. simpl. rewrite Hloop.
        split.
        -- intros (lvls & Hall & ->).
           exists r, rest, s, d, id, n, reg, (RegionList (band :: l)), (band :: l), lvls.
           split_and!; first [done | by left].
        -- intros (r' & rest' & s' & d' & id' & n' & reg' & ev' & l' & lvls & ? & ? & ?
                   & ? & ? & ? & ? & Hev & Hall & ->). simplify_eq.
           destruct Hev as [[= <-]|[? _]]; try done.
           exists lvls. split; [done|]. unfold set_levels; simpl; congruence.
Qed.

Lemma Day_deserialize_date (json : ApsJsonDay) (data_type : PyType) (day : Day) :
  Day_deserialize fromisoformat int_of_str SnowRegion_new json data_type = Ok day →
  ∃ s d, json !! "FormattedDate" = Some (DayStr s) ∧
         fromisoformat (str_prefix 10 s) = Ok d ∧ date day = Some d.
Proof.
  intros (r & rest & s & d & id & n & reg & ev & l & lvls & _ & Hs & Hd & _ & _ & _ & _
          & _ & _ & ->)%Day_deserialize_Ok_iff.
  by exists s, d.
Qed.

(** One step of the loop of [Timeline.deserialize]. *)
Lemma Timeline_deserialize_step (data_type : PyType) (tl tl' : Timeline) (jd : ApsJsonDay) :
  (formatted ← dict_getitem jd "FormattedDate";
   d ← match formatted with
       | DayStr s => fromisoformat (str_prefix 10 s)
       | DayBool _ | DayList _ => Raise TypeError
       end;
   elem ← Day_deserialize fromisoformat int_of_str SnowRegion_new jd data_type;
   Ok (Container_setitem tl d elem)) = Ok tl' →
  ∃ day k, Day_deserialize fromisoformat int_of_str SnowRegion_new jd data_type = Ok day ∧
           date day = Some k ∧ tl' = od_set tl k day.
Proof.
  unfold dict_getitem.
  destruct (jd !! "FormattedDate") as [[s| |]|] eqn:Es; simpl; try done.
  destruct (fromisoformat (str_prefix 10 s)) as [d|] eqn:Ed; simpl; [|done].
  destruct (Day_deserialize _ _ _ jd data_type) as [day|] eqn:Eday; simpl; [|done].
  intros [= <-]. exists day, d. split_and!; [done| |done].
  apply Day_deserialize_date in Eday as (s' & d' & ? & ? & ->). congruence.
Qed.
End DayDeserialize.

(** ** Dictionaries in insertion order: keys and entries *)

Section OrderedDictFacts.
Context {K V : Type} `{EqDecision K}.

Lemma od_set_keys (d : list (K * V)) (k : K) (v : V) :
  (od_set d k v).*1 = if decide (k ∈ d.*1) then d.*1 else d.*1 ++ [k].
Proof.
  induction d as [|[k' v'] d IH].
  - rewrite decide_False; [done|]. apply not_elem_of_nil.
  - csimpl. destruct (decide (k' = k)) as [->|Hne]; csimpl.
    + rewrite decide_True; [done|]. apply list_elem_of_here.
    + rewrite IH. destruct (decide (k ∈ d.*1)) as [Hin|Hnin].
      * rewrite decide_True; [done|]. by apply list_elem_of_further.
      * rewrite decide_False; [done|]. rewrite elem_of_cons.
        intros [?|?]; [by subst | done].
Qed.

Lemma od_set_keys_NoDup (d : list (K * V)) (k : K) (v : V) :
  NoDup d.*1 → NoDup (od_set d k v).*1.
Proof.
  intros Hnd. rewrite od_set_keys. case_decide; [done|].
  apply NoDup_app. split_and!; [done | | apply NoDup_singleton].
  intros x Hx ->%list_elem_of_singleton. done.
Qed.

Lemma od_set_key_in (d : list (K * V)) (k k' : K) (v : V) :
  k' ∈ (od_set d k v).*1 ↔ k' = k ∨ k' ∈ d.*1.
Proof.
  rewrite od_set_keys. case_decide.
  - split; [by right | intros [->|?]; done].
  - rewrite elem_of_app, list_elem_of_singleton. tauto.
Qed.

Lemma od_set_elem (d : list (K * V)) (k k' : K) (v v' : V) :
  (k', v') ∈ od_set d k v → (k', v') ∈ d ∨ (k' = k ∧ v' = v).
Proof.
  induction d as [|[k0 v0] d IH]; simpl.
  - intros [= -> ->]%list_elem_of_singleton. by right.
  - destruct (decide (k0 = k)) as [->|Hne].
    + intros [[= -> ->]|Hin]%elem_of_cons; [by right|]. left. by apply list_elem_of_further.
    + intros [[= -> ->]|Hin]%elem_of_cons; [left; apply list_elem_of_here|].
      destruct (IH Hin) as [?|?]; [left; by apply list_elem_of_further | by right].
Qed.

Lemma od_set_length (d : list (K * V)) (k : K) (v : V) :
  (length (od_set d k v) ≤ S (length d))%nat.
Proof.
  induction d as [|[k0 v0] d IH]; simpl; [lia|]. case_decide; simpl; lia.
Qed.
End OrderedDictFacts.

Section TimelineDeserialize.
Variable Timeline_bool : Timeline → bool.
Variable fromisoformat : string → result dt_date.
Variable int_of_str : string → result Z.
Variable SnowRegion_new : Z → result SnowRegion.

Lemma Timeline_deserialize_loop (data_type : PyType) (days : list ApsJsonDay)
    (tl0 tl : Timeline) :
  for_each
    (λ timeline day,
       formatted ← dict_getitem day "FormattedDate";
       d ← match formatted with
           | DayStr s => fromisoformat (str_prefix 10 s)
           | DayBool _ | DayList _ => Raise TypeError
           end;
       elem ← Day_deserialize fromisoformat int_of_str SnowRegion_new day data_type;
       Ok (Container_setitem timeline d elem))
    days tl0 = Ok tl →
  (∀ jd, jd ∈ days → ∃ day k,
     Day_deserialize fromisoformat int_of_str SnowRegion_new jd data_type = Ok day ∧
     date day = Some k ∧ k ∈ tl.*1) ∧
  (∀ k day, (k, day) ∈ tl → (k, day) ∈ tl0 ∨ ∃ jd, jd ∈ days ∧
     Day_deserialize fromisoformat int_of_str SnowRegion_new jd data_type = Ok day ∧
     date day = Some k) ∧
  (∀ k, k ∈ tl0.*1 → k ∈ tl.*1) ∧
  (NoDup tl0.*1 → NoDup tl.*1) ∧
  (length tl ≤ length tl0 + length days)%nat.
Proof.
  revert tl0. induction days as [|jd days IH]; intros tl0.
  - intros [= <-]. split_and!.
    + intros jd Hjd. by apply elem_of_nil in Hjd.
    + intros k day Hin. by left.
    + done.
    + done.
    + simpl. lia.
  - cbn [for_each].
    match goal with |- (?step ≫= _) = _ → _ => destruct step as [tl1|] eqn:Estep end;
      [|done].
    rewrite bind_Ok. intros Hrest.
    apply Timeline_deserialize_step in Estep as (day & k & Hday & Hk & ->).
    destruct (IH _ Hrest) as (Hall & Hfrom & Hkeys & Hnd & Hlen).
    split_and!.
    + intros jd' [->|Hin]%elem_of_cons; [|by apply Hall].
      exists day, k. split_and!; [done..|]. apply Hkeys, od_set_key_in. by left.
    + intros k' day' Hin. destruct (Hfrom k' day' Hin) as [Hset|(jd' & ? & ? & ?)].
      * apply od_set_elem in Hset as [?|[-> ->]]; [by left|].
        right. exists jd. split_and!; [apply list_elem_of_here | done..].
      * right. exists jd'. split_and!; [by apply list_elem_of_further | done..].
    + intros k' Hin. apply Hkeys, od_set_key_in. by right.
    + intros Hnd0. by apply Hnd, od_set_keys_NoDup.
    + pose proof (od_set_length tl0 k day). simpl. lia.
Qed.
End TimelineDeserialize.

(** X13: [Day.deserialize] returns a record exactly when the day has a
    non-empty list under 'Regions', a date string under 'FormattedDate'
    whose first ten characters parse, and, in the first region, a region id
    that resolves and elevation data (a list, or an empty string) of which
    every entry deserializes; the record carries that date, that region and
    one band per entry, in the order of the payload. *)
Theorem Day_deserialize_record (fromisoformat : string → result dt_date)
    (int_of_str : string → result Z) (SnowRegion_new : Z → result SnowRegion)
    (json : ApsJsonDay) (data_type : PyType) (day : Day) :
  Day_deserialize fromisoformat int_of_str SnowRegion_new json data_type = Ok day ↔
  ∃ r rest s d id n reg ev l lvls,
    json !! "Regions" = Some (DayList (r :: rest)) ∧
    json !! "FormattedDate" = Some (DayStr s) ∧
    fromisoformat (str_prefix 10 s) = Ok d ∧
    r !! "RegionId" = Some (RegionStr id) ∧ int_of_str id = Ok n ∧
    SnowRegion_new n = Ok reg ∧
    r !! "ElevationData" = Some ev ∧
    (ev = RegionList l ∨ ev = RegionStr "" ∧ l = []) ∧
    Forall2 (λ band lvl, Level_deserialize band data_type = Ok lvl) l lvls ∧
    day = mkDay (Some d) (Some reg) lvls.
Proof. apply Day_deserialize_Ok_iff. Qed.

(** X14: [Day.deserialize] consults only the first region of a day: the
    regions after it can be changed or dropped without changing the
    outcome. *)
Theorem Day_deserialize_first_region_only (fromisoformat : string → result dt_date)
    (int_of_str : string → result Z) (SnowRegion_new : Z → result SnowRegion)
    (json : ApsJsonDay) (data_type : PyType) (r : ApsJsonRegion)
    (rest rest' : list ApsJsonRegion) :
  Day_deserialize fromisoformat int_of_str SnowRegion_new
    (<["Regions" := DayList (r :: rest)]> json) data_type =
  Day_deserialize fromisoformat int_of_str SnowRegion_new
    (<["Regions" := DayList (r :: rest')]> json) data_type.
Proof.
  unfold Day_deserialize, dict_getitem.
  rewrite !lookup_insert_eq. simpl. rewrite !lookup_insert_ne by done.
  reflexivity.
Qed.

(** X15: a day that deserializes to a record without bands does so for
    every [data_type], also for one that [Level.deserialize] rejects: the
    argument is only looked at when a band is read.  Such a record is not
    present. *)
Theorem Day_deserialize_without_bands (Data_bool : Data → bool)
    (fromisoformat : string → result dt_date)
    (int_of_str : string → result Z) (SnowRegion_new : Z → result SnowRegion)
    (json : ApsJsonDay) (data_type : PyType) (day : Day) :
  Day_deserialize fromisoformat int_of_str SnowRegion_new json data_type = Ok day →
  levels day = [] →
  Day_bool Data_bool day = false ∧
  ∀ data_type',
    Day_deserialize fromisoformat int_of_str SnowRegion_new json data_type' = Ok day.
Proof.
  intros Hday Hnil. split; [unfold Day_bool; by rewrite Hnil|].
  intros data_type'.
  apply Day_deserialize_Ok_iff in Hday
    as (r & rest & s & d & id & n & reg & ev & l & lvls & ? & ? & ? & ? & ? & ? & ? & Hev
        & Hall & ->).
  simpl in Hnil. subst lvls. apply Forall2_nil_inv_r in Hall as ->.
  apply Day_deserialize_Ok_iff.
  exists r, rest, s, d, id, n, reg, ev, [], []. split_and!; first [done | constructor].
Qed.

Lemma Day_deserialize_without_bands_witness :
  Day_bool object_bool bandless_day = false ∧
  Day_deserialize fromisoformat_ymd int_of_decimal (SnowRegion_among [3003; 3010])
    bandless_day_json NotAClass = Ok bandless_day.
Proof.
  destruct (Day_deserialize_without_bands object_bool fromisoformat_ymd int_of_decimal
              (SnowRegion_among [3003; 3010]) bandless_day_json (ClassWeather Temp)
              bandless_day) as [H1 H2]; [vm_compute; reflexivity | reflexivity |].
  split; [exact H1 | apply H2].
Defined.

(** X16: [Timeline.deserialize] is all or nothing: when it returns a
    timeline, every day of the payload deserialized and has its date among
    the keys; every record of the timeline is the deserialized record of
    some day and is stored under its own date; no date occurs twice, and
    there are at most as many records as days. *)
Theorem Timeline_deserialize_records (fromisoformat : string → result dt_date)
    (int_of_str : string → result Z) (SnowRegion_new : Z → result SnowRegion)
    (json : ApsJsonFull) (data_type : PyType) (tl : Timeline) :
  Timeline_deserialize fromisoformat int_of_str SnowRegion_new json data_type = Ok tl →
  ∃ days, json !! "TimeLine" = Some days ∧
    (∀ jd, jd ∈ days → ∃ day k,
       Day_deserialize fromisoformat int_of_str SnowRegion_new jd data_type = Ok day ∧
       date day = Some k ∧ k ∈ tl.*1) ∧
    (∀ k day, (k, day) ∈ tl → date day = Some k ∧ ∃ jd, jd ∈ days ∧
       Day_deserialize fromisoformat int_of_str SnowRegion_new jd data_type = Ok day) ∧
    NoDup tl.*1 ∧ (length tl ≤ length days)%nat.
Proof.
  unfold Timeline_deserialize, dict_getitem.
  destruct (json !! "TimeLine") as [days|]; [|done]. rewrite bind_Ok.
  intros (Hall & Hfrom & _ & Hnd & Hlen)%Timeline_deserialize_loop.
  exists days. split_and!; try done.
  - intros k day Hin. destruct (Hfrom k day Hin) as [Hnil|(jd & ? & ? & ?)].
    + by apply elem_of_nil in Hnil.
    + split; [done|]. by exists jd.
  - apply Hnd. constructor.
Qed.

Lemma Timeline_deserialize_records_witness :
  ∃ days, mixed_payload !! "TimeLine" = Some days ∧
    (∀ jd, jd ∈ days → ∃ day k,
       Day_deserialize fromisoformat_ymd int_of_decimal (SnowRegion_among [3003; 3010])
         jd (ClassWeather Temp) = Ok day ∧
       date day = Some k ∧ k ∈ mixed_timeline.*1) ∧
    (∀ k day, (k, day) ∈ mixed_timeline → date day = Some k ∧ ∃ jd, jd ∈ days ∧
       Day_deserialize fromisoformat_ymd int_of_decimal (SnowRegion_among [3003; 3010])
         jd (ClassWeather Temp) = Ok day) ∧
    NoDup mixed_timeline.*1 ∧ (length mixed_timeline ≤ length days)%nat.
Proof.
  apply (Timeline_deserialize_records fromisoformat_ymd int_of_decimal
           (SnowRegion_among [3003; 3010]) mixed_payload (ClassWeather Temp) mixed_timeline).
  vm_compute. reflexivity.
Defined.

(** X17: [Aps.deserialize] returns a dataset exactly when
    [Timeline.deserialize] returns a timeline that is true and has a first
    record; the dataset then holds that one timeline, under the region of
    its first record. *)
Theorem Aps_deserialize_single_timeline (Timeline_bool : Timeline → bool)
    (fromisoformat : string → result dt_date)
    (int_of_str : string → result Z) (SnowRegion_new : Z → result SnowRegion)
    (json : ApsJsonFull) (data_type : PyType) (aps : Aps) :
  Aps_deserialize Timeline_bool fromisoformat int_of_str SnowRegion_new json data_type
    = Ok aps ↔
  ∃ key day rest,
    Timeline_deserialize fromisoformat int_of_str SnowRegion_new json data_type
      = Ok ((key, day) :: rest) ∧
    Timeline_bool ((key, day) :: rest) = true ∧
    aps = [(region day, (key, day) :: rest)].
Proof.
  unfold Aps_deserialize.
  destruct (Timeline_deserialize _ _ _ json data_type) as [tl|e]; simpl.
  - unfold Timeline_get_region. destruct (Timeline_bool tl) eqn:Ht; simpl.
    + destruct tl as [|[key day] rest]; simpl.
      * split; [done|]. by intros (? & ? & ? & ? & _).
      * split.
        -- intros [= <-]. by exists key, day, rest.
        -- intros (key' & day' & rest' & [= -> -> ->] & _ & ->). done.
    + split; [done|]. intros (? & ? & ? & [= ->] & Ht' & _). congruence.
  - split; [done|]. by intros (? & ? & ? & ? & _).
Qed.

(** ** Deserialized bands under the merge *)

Lemma WEATHER_ATTRS_get_inj (c1 c2 : DataType) (attr : Attr) :
  WEATHER_ATTRS_get c1 = Some attr → WEATHER_ATTRS_get c2 = Some attr → c1 = c2.
Proof. destruct c1, c2; simpl; intros [= <-] [=]; done. Qed.

Lemma deserialized_numeric_compatible (j1 j2 : ApsJsonData) (t1 t2 : PyType) (l1 l2 : Level) :
  Level_deserialize j1 t1 = Ok l1 → Level_deserialize j2 t2 = Ok l2 →
  numeric_compatible l1 l2.
Proof.
  intros (? & ? & ? & b1 & top1 & i1 & _ & _ & _ & _ & _ & _ & Hf1 & Hr1 & Hi1 & _)
           %Level_deserialize_Ok
         (? & ? & ? & b2 & top2 & i2 & _ & _ & _ & _ & _ & _ & Hf2 & Hr2 & Hi2 & _)
           %Level_deserialize_Ok.
  unfold numeric_compatible, zero_beside_none. rewrite Hf1, Hf2, Hr1, Hr2, Hi1, Hi2.
  split_and!; intros [[? ?]|[? ?]]; repeat case_bool_decide; congruence.
Qed.

(** X18: two bands deserialized for weather classes [c1] and [c2] -- with a
    [Data] that is true, as objects are by default -- merge exactly when the
    classes differ: for one class the merge raises ConflictingData; for two
    classes it succeeds, gives the same band in both orders, and that band
    holds a [Data] in the slots of the two classes and nowhere else. *)
Theorem deserialized_bands_merge (Data_bool : Data → bool) (j1 j2 : ApsJsonData)
    (c1 c2 : DataType) (l1 l2 : Level) :
  (∀ d, Data_bool d = true) →
  Level_deserialize j1 (ClassWeather c1) = Ok l1 →
  Level_deserialize j2 (ClassWeather c2) = Ok l2 →
  (c1 = c2 → ∃ e, Level_assimilate Data_bool l1 l2 = Raise e ∧ ConflictingData e) ∧
  (c1 ≠ c2 → ∃ l,
     Level_assimilate Data_bool l1 l2 = Ok l ∧ Level_assimilate Data_bool l2 l1 = Ok l ∧
     ∀ attr, is_Some (getattr l attr) ↔
             WEATHER_ATTRS_get c1 = Some attr ∨ WEATHER_ATTRS_get c2 = Some attr).
Proof.
  intros Htrue H1 H2.
  pose proof (deserialized_numeric_compatible _ _ _ _ _ _ H1 H2) as Hnum.
  apply Level_deserialize_Ok in H1
    as (c1' & a1 & d1 & ? & ? & ? & [= <-] & Ha1 & _ & _ & _ & _ & _ & _ & _ & Hg1 & Hn1).
  apply Level_deserialize_Ok in H2
    as (c2' & a2 & d2 & ? & ? & ? & [= <-] & Ha2 & _ & _ & _ & _ & _ & _ & _ & Hg2 & Hn2).
  assert (∀ attr, populated Data_bool l1 attr = bool_decide (attr = a1)) as Hp1.
  { intros attr. unfold populated. case_bool_decide as Hattr.
    - subst. rewrite Hg1. simpl. apply Htrue.
    - by rewrite Hn1. }
  assert (∀ attr, populated Data_bool l2 attr = bool_decide (attr = a2)) as Hp2.
  { intros attr. unfold populated. case_bool_decide as Hattr.
    - subst. rewrite Hg2. simpl. apply Htrue.
    - by rewrite Hn2. }
  split.
  - intros <-. assert (a2 = a1) as -> by congruence.
    apply (Level_assimilate_conflict Data_bool l1 l2 a1).
    unfold conflict. by rewrite Hp1, Hp2, !bool_decide_eq_true_2.
  - intros Hne. assert (a1 ≠ a2) as Hattr.
    { intros ->. apply Hne. by eapply WEATHER_ATTRS_get_inj. }
    destruct (Level_assimilate_disjoint Data_bool l1 l2) as [l Hl].
    { intros attr. unfold conflict. rewrite Hp1, Hp2.
      repeat case_bool_decide; simpl; congruence. }
    exists l. split_and!; [done | by rewrite <-(Level_assimilate_swap Data_bool l1 l2) |].
    intros attr. apply Level_assimilate_Ok in Hl as (_ & _ & _ & _ & Hg).
    rewrite Hg. unfold merged_slot. rewrite Hp1, Hp2.
    repeat case_bool_decide; subst; simpl; rewrite ?Hg1, ?Hg2, ?Ha1, ?Ha2.
    + done.
    + split; [by left | by eexists].
    + split; [by right | by eexists].
    + split; [by intros [? [=]] | intros [[= ?]|[= ?]]; congruence].
Qed.

Lemma deserialized_bands_merge_witness :
  (∃ e, Level_assimilate object_bool lowland_band lowland_band = Raise e ∧
        ConflictingData e) ∧
  ∃ l, Level_assimilate object_bool lowland_band windy_band = Ok l ∧
       Level_assimilate object_bool windy_band lowland_band = Ok l.
Proof.
  split.
  - apply (deserialized_bands_merge object_bool sample_band_json sample_band_json
             Temp Temp lowland_band lowland_band);
      [done | vm_compute; reflexivity | vm_compute; reflexivity | reflexivity].
  - destruct (deserialized_bands_merge object_bool sample_band_json sample_band_json
                Temp Wind lowland_band windy_band) as [_ H];
      [done | vm_compute; reflexivity | vm_compute; reflexivity |].
    destruct H as (l & H1 & H2 & _); [discriminate|]. by exists l.
Defined.

(** ** The rows of Day.to_frame *)

Section OrderedDictLookup.
Context {K V : Type} `{EqDecision K}.

Lemma od_get_set (d : list (K * V)) (k k' : K) (v : V) :
  od_get (od_set d k v) k' = if decide (k = k') then Some v else od_get d k'.
Proof.
  induction d as [|[k0 v0] d IH]; simpl.
  - by destruct (decide (k = k')).
  - destruct (decide (k0 = k)) as [->|Hne]; simpl.
    + by destruct (decide (k = k')).
    + rewrite IH. destruct (decide (k0 = k')) as [->|?]; [|done].
      by rewrite decide_False.
Qed.
End OrderedDictLookup.

Section DayFrame.
Variable Data_bool : Data → bool.

Lemma Day_to_frame_loop (P : Level → Prop) `{∀ lvl, Decision (P lvl)}
    (elevation level_index : option Z) (lvls : list Level) (acc : list (string * Row)) :
  (∀ lvl, lvl ∈ lvls → level_selected elevation level_index lvl = Ok (bool_decide (P lvl))) →
  ∃ rows,
    for_each
      (λ levels_ lvl,
         keep ← level_selected elevation level_index lvl;
         if keep : bool
         then Ok (od_set levels_ (Level_get_name lvl) (level_row Data_bool lvl))
         else Ok levels_)
      lvls acc = Ok rows ∧
    ∀ name, od_get rows name =
      match last (filter (λ lvl, P lvl ∧ Level_get_name lvl = name) lvls) with
      | Some lvl => Some (level_row Data_bool lvl)
      | None => od_get acc name
      end.
Proof.
  revert acc. induction lvls as [|lvl lvls IH]; intros acc Hsel.
  - exists acc. split; [done|]. intros name. done.
  - cbn [for_each]. rewrite (Hsel lvl) by apply list_elem_of_here. rewrite bind_Ok.
    destruct (IH (if bool_decide (P lvl)
                  then od_set acc (Level_get_name lvl) (level_row Data_bool lvl)
                  else acc)) as (rows & Hrows & Hget).
    { intros lvl' Hin. by apply Hsel, list_elem_of_further. }
    exists rows. split.
    + destruct (bool_decide (P lvl)); by rewrite bind_Ok.
    + intros name. rewrite Hget, filter_cons.
      destruct (decide (P lvl ∧ Level_get_name lvl = name)) as [[HP Hname]|Hnot].
      * rewrite last_cons. destruct (last _); [done|].
        rewrite (bool_decide_eq_true_2 _ HP), od_get_set. by rewrite decide_True.
      * destruct (last _); [done|]. case_bool_decide as HP; [|done].
        rewrite od_get_set, decide_False; [done|]. intros Hname. by apply Hnot.
Qed.

Lemma level_selected_index (i : Z) (lvl : Level) :
  level_selected None (Some i) lvl = Ok (bool_decide (index lvl = Some i)).
Proof. reflexivity. Qed.

Lemma level_selected_all (lvl : Level) :
  level_selected None None lvl = Ok (bool_decide True).
Proof. reflexivity. Qed.

Lemma level_selected_floorless (e : Z) (level_index : option Z) (lvl : Level) :
  e ≠ 0 → floor lvl = None → level_selected (Some e) level_index lvl = Raise TypeError.
Proof.
  intros He Hf. unfold level_selected, elevation_matches. simpl. rewrite Hf.
  destruct (Z.eqb_spec e 0); done.
Qed.

Lemma level_selected_raises (elevation level_index : option Z) (lvl : Level) (e : Exception) :
  level_selected elevation level_index lvl = Raise e → e = TypeError.
Proof.
  unfold level_selected, elevation_matches, int_le, int_lt.
  destruct (bool_decide (elevation = None) && bool_decide (level_index = None)); [done|].
  destruct (int_bool elevation); simpl; [|done].
  destruct (floor lvl), elevation; simpl; try (by intros [= <-]).
  destruct (_ <=? _); simpl; [|done].
  destruct (int_bool (roof lvl)); simpl; [|done].
  destruct (roof lvl); simpl; [|by intros [= <-]].
  destruct (_ <? _); done.
Qed.
End DayFrame.

(** X19: [Day.to_frame] with a band index and no elevation never raises;
    its dict of rows has, under a band name, the row of the last band of the
    day that has this index and this name, and no entry for a name that no
    band with this index has. *)
Theorem Day_to_frame_band_index (Data_bool : Data → bool) (self : Day) (i : Z) :
  ∃ rows, Day_to_frame Data_bool self None (Some i) = Ok rows ∧
    ∀ name, od_get rows name =
      level_row Data_bool <$>
        last (filter (λ lvl, index lvl = Some i ∧ Level_get_name lvl = name) (levels self)).
Proof.
  unfold Day_to_frame. simpl.
  destruct (Day_to_frame_loop Data_bool (λ lvl, index lvl = Some i) None (Some i)
              (levels self) []) as (rows & Hrows & Hget).
  { intros lvl _. apply level_selected_index. }
  exists rows. split; [done|]. intros name. rewrite Hget. by destruct (last _).
Qed.

(** X20: [Day.to_frame] without a filter never raises; its dict of rows has
    one entry per band name of the day, and bands that share a name share
    the entry, which is the row of the last of them. *)
Theorem Day_to_frame_unfiltered (Data_bool : Data → bool) (self : Day) :
  ∃ rows, Day_to_frame Data_bool self None None = Ok rows ∧
    ∀ name, od_get rows name =
      level_row Data_bool <$>
        last (filter (λ lvl, Level_get_name lvl = name) (levels self)).
Proof.
  unfold Day_to_frame. simpl.
  destruct (Day_to_frame_loop Data_bool (λ _, True) None None (levels self) [])
    as (rows & Hrows & Hget).
  { intros lvl _. apply level_selected_all. }
  exists rows. split; [done|]. intros name. rewrite Hget.
  rewrite (list_filter_iff (λ lvl, True ∧ Level_get_name lvl = name)
                           (λ lvl, Level_get_name lvl = name)) by tauto.
  by destruct (last _).
Qed.

(** X21: [Day.to_frame] with an elevation other than 0 raises a TypeError
    as soon as one band of the day has no floor ([floor] is [None], as
    [Level()] leaves it): the filter compares the floor with the
    elevation. *)
Theorem Day_to_frame_floorless_band (Data_bool : Data → bool) (self : Day) (e : Z)
    (lvl : Level) :
  e ≠ 0 → lvl ∈ levels self → floor lvl = None →
  Day_to_frame Data_bool self (Some e) None = Raise TypeError.
Proof.
  intros He Hin Hfloor. unfold Day_to_frame. simpl.
  generalize (@nil (string * Row)). revert Hin.
  induction (levels self) as [|lvl' lvls IH]; intros Hin acc.
  - by apply elem_of_nil in Hin.
  - cbn [for_each].
    destruct (level_selected (Some e) None lvl') as [keep|err] eqn:Esel.
    + rewrite bind_Ok. apply elem_of_cons in Hin as [->|Hin].
      * rewrite level_selected_floorless in Esel by done. done.
      * destruct keep; rewrite bind_Ok; by apply IH.
    + apply level_selected_raises in Esel as ->. done.
Qed.

Lemma Day_to_frame_floorless_band_witness :
  Day_to_frame object_bool floorless_day (Some 100) None = Raise TypeError.
Proof.
  apply (Day_to_frame_floorless_band object_bool floorless_day 100 floorless_band).
  - lia.
  - apply list_elem_of_here.
  - reflexivity.
Defined.

(** ** Aps.parse_level and Level.get_name *)

Lemma str_split_once_cons (c : Ascii.ascii) (s : string) :
  c ≠ dash →
  (∀ rest, str_split_once dash (s +:+ String dash rest) = [s; rest]) ∧
  str_split_once dash s = [s] →
  (∀ rest, str_split_once dash (String c s +:+ String dash rest) = [String c s; rest]) ∧
  str_split_once dash (String c s) = [String c s].
Proof.
  intros Hc [Hsplit Hnone]. split.
  - intros rest. simpl. rewrite decide_False by done. by rewrite Hsplit.
  - simpl. rewrite decide_False by done. by rewrite Hnone.
Qed.

Lemma pretty_N_char_no_dash (x : N) : pretty_N_char x ≠ dash.
Proof. unfold pretty_N_char. by repeat case_match. Qed.

Lemma str_split_once_pretty_N_go (x : N) (s : string) :
  (∀ rest, str_split_once dash (s +:+ String dash rest) = [s; rest]) ∧
  str_split_once dash s = [s] →
  (∀ rest, str_split_once dash (pretty_N_go x s +:+ String dash rest)
           = [pretty_N_go x s; rest]) ∧
  str_split_once dash (pretty_N_go x s) = [pretty_N_go x s].
Proof.
  revert s. induction (N.lt_wf_0 x) as [x _ IH]; intros s Hs.
  assert (x = 0 ∨ 0 < x)%N as [->|Hpos] by lia.
  - by rewrite pretty_N_go_0.
  - rewrite pretty_N_go_step by done. apply IH; [by apply N.div_lt|].
    apply str_split_once_cons; [apply pretty_N_char_no_dash | done].
Qed.

Lemma str_split_once_numeral (f : Z) :
  0 ≤ f →
  (∀ rest, str_split_once dash (pretty f +:+ String dash rest) = [pretty f; rest]) ∧
  str_split_once dash (pretty f) = [pretty f].
Proof.
  intros Hf. destruct f as [|p|p]; [| |lia].
  - split; [intros rest|]; reflexivity.
  - unfold pretty, pretty_Z, pretty, pretty_positive, pretty, pretty_N.
    rewrite decide_False by done. apply str_split_once_pretty_N_go.
    split; [intros rest|]; reflexivity.
Qed.

(** X22: [Aps.parse_level] reads back the name [Level.get_name] gives a
    band with a floor [f >= 0] and a roof [r] other than 0: it returns
    [(f, r)], given that [int] reads the two numerals back. *)
Theorem Aps_parse_level_get_name (int_of_str : string → result Z) (lvl : Level) (f r : Z) :
  floor lvl = Some f → roof lvl = Some r → 0 ≤ f → r ≠ 0 →
  int_of_str (pretty f) = Ok f → int_of_str (pretty r) = Ok r →
  Aps_parse_level int_of_str (Level_get_name lvl) = Ok (f, r).
Proof.
  intros Hfloor Hroof Hf Hr Hintf Hintr.
  unfold Aps_parse_level, Level_get_name, int_str. rewrite Hfloor, Hroof.
  assert (int_bool (Some r) = true) as ->.
  { simpl. by destruct (Z.eqb_spec r 0). }
  change ("-" +:+ pretty r) with (String dash (pretty r)).
  destruct (str_split_once_numeral f Hf) as [-> _].
  cbn [for_each]. rewrite Hintf, !bind_Ok. cbn [app]. rewrite Hintr, !bind_Ok.
  reflexivity.
Qed.

Lemma Aps_parse_level_get_name_witness :
  Level_get_name lowland_band = "0-500" ∧
  Aps_parse_level int_of_decimal (Level_get_name lowland_band) = Ok (0, 500).
Proof.
  split; [vm_compute; reflexivity|].
  apply (Aps_parse_level_get_name int_of_decimal lowland_band 0 500);
    [reflexivity | reflexivity | lia | lia | vm_compute; reflexivity
     | vm_compute; reflexivity].
Defined.

(** X23: the name of a band with a floor [f >= 0] and no roof (or the roof
    0) is the numeral of the floor alone, and [Aps.parse_level] raises the
    ValueError of a failed unpacking on it. *)
Theorem Aps_parse_level_open_band (int_of_str : string → result Z) (lvl : Level) (f : Z) :
  floor lvl = Some f → int_bool (roof lvl) = false → 0 ≤ f →
  int_of_str (pretty f) = Ok f →
  Level_get_name lvl = pretty f ∧
  Aps_parse_level int_of_str (Level_get_name lvl) =
  Raise (ValueError "not enough values to unpack (expected 2, got 1)").
Proof.
  intros Hfloor Hroof Hf Hintf.
  assert (Level_get_name lvl = pretty f) as ->.
  { unfold Level_get_name, int_str. rewrite Hfloor, Hroof.
    generalize (pretty f). intros s. induction s as [|c s IH]; [done|].
    change (String c (s +:+ "") = String c s). by f_equal. }
  split; [done|]. unfold Aps_parse_level.
  destruct (str_split_once_numeral f Hf) as [_ ->].
  cbn [for_each]. rewrite Hintf, !bind_Ok. reflexivity.
Qed.

Lemma Aps_parse_level_open_band_witness :
  Level_get_name upland_band = "500" ∧
  Aps_parse_level int_of_decimal (Level_get_name upland_band) =
  Raise (ValueError "not enough values to unpack (expected 2, got 1)").
Proof.
  destruct (Aps_parse_level_open_band int_of_decimal upland_band 500) as [H1 H2];
    [reflexivity | reflexivity | lia | vm_compute; reflexivity |].
  split; [rewrite H1; vm_compute; reflexivity | exact H2].
Defined.

(** ** Day.assimilate on three records *)

Lemma clamped_is_Some {A : Type} (xs : list A) (k : nat) : xs ≠ [] → is_Some (clamped xs k).
Proof. apply lookup_min_index. Qed.

Lemma clamped_lt {A : Type} (xs : list A) (k : nat) :
  (k < length xs)%nat → clamped xs k = xs !! k.
Proof. intros Hk. unfold clamped. f_equal. lia. Qed.

Lemma clamped_clamped {A : Type} (xs : list A) (n k : nat) :
  (length xs ≤ n)%nat → clamped xs (k `min` (n - 1)) = clamped xs k.
Proof. intros Hn. unfold clamped. f_equal. lia. Qed.

Lemma list_of_pointwise {A : Type} (Q : nat → A → Prop) (n : nat) :
  (∀ k, (k < n)%nat → ∃ w, Q k w) →
  ∃ d, length d = n ∧ ∀ k, (k < n)%nat → ∃ w, d !! k = Some w ∧ Q k w.
Proof.
  induction n as [|n IH]; intros HQ.
  - exists []. split; [done|]. intros k Hk. lia.
  - destruct IH as (d & Hlen & Hd); [intros k Hk; apply HQ; lia|].
    destruct (HQ n) as [w Hw]; [lia|].
    exists (d ++ [w]). split; [rewrite length_app; simpl; lia|].
    intros k Hk. destruct (decide (k = n)) as [->|Hne].
    + exists w. split; [|done]. rewrite lookup_app_r by lia.
      by rewrite Hlen, Nat.sub_diag.
    + destruct (Hd k) as (w' & ? & ?); [lia|]. exists w'. split; [|done].
      by apply lookup_app_l_Some.
Qed.

Section DayMerge.
Variable Data_bool : Data → bool.

Lemma pointwise_merge_nonempty (a b d : list Level) :
  a ≠ [] → pointwise_merge Data_bool a b d → d ≠ [].
Proof. intros Ha [Hlen _] ->. destruct a; [done|]. simpl in Hlen. lia. Qed.

(** The position-wise merge, from the positions below its length. *)
Lemma pointwise_merge_below (a b d : list Level) :
  a ≠ [] → b ≠ [] →
  length d = (length a `max` length b)%nat →
  (∀ k, (k < length d)%nat → ∃ x y l,
     clamped a k = Some x ∧ clamped b k = Some y ∧ d !! k = Some l ∧
     Level_assimilate Data_bool x y = Ok l) →
  pointwise_merge Data_bool a b d.
Proof.
  intros Ha Hb Hlen Hk. split; [done|]. intros k.
  assert (0 < length a)%nat by (destruct a; [done | simpl; lia]).
  destruct (Hk (k `min` (length d - 1))%nat) as (x & y & l & Hx & Hy & Hl & Hm); [lia|].
  exists x, y, l. split_and!; [| |done..].
  - rewrite <-Hx. symmetry. apply clamped_clamped. lia.
  - rewrite <-Hy. symmetry. apply clamped_clamped. lia.
Qed.

Lemma pointwise_merge_unique (a b d d' : list Level) :
  pointwise_merge Data_bool a b d → pointwise_merge Data_bool a b d' → d = d'.
Proof.
  intros [Hlen Hk] [Hlen' Hk']. apply list_eq_same_length with (length d); [congruence|done|].
  intros k l l' Hlt Hl Hl'.
  destruct (Hk k) as (x & y & m & Hx & Hy & Hm & Hxy).
  destruct (Hk' k) as (x' & y' & m' & Hx' & Hy' & Hm' & Hxy').
  rewrite clamped_lt in Hm by done. rewrite clamped_lt in Hm' by lia. congruence.
Qed.

Lemma Day_assimilate_Ok_iff (A B day : Day) :
  Day_assimilate Data_bool A B = Ok day ↔
  date A = date B ∧ region A = region B ∧ date day = date A ∧ region day = region A ∧
  merged_bands Data_bool (levels A) (levels B) (levels day).
Proof.
  destruct (decide (date A = date B)) as [Hd|Hd];
    [destruct (decide (region A = region B)) as [Hr|Hr]|].
  - destruct (levels A) as [|a0 la] eqn:Ea; [|destruct (levels B) as [|b0 lb] eqn:Eb].
    + unfold Day_assimilate. rewrite !bool_decide_eq_false_2 by (intros H; done).
      rewrite Ea. simpl. split.
      * intros [= <-]. done.
      * intros (_ & _ & Hdd & Hrr & Hl). destruct day; simpl in *. by subst.
    + unfold Day_assimilate. rewrite !bool_decide_eq_false_2 by (intros H; done).
      rewrite Ea, Eb. simpl. split.
      * intros [= <-]. done.
      * intros (_ & _ & Hdd & Hrr & Hl). destruct day; simpl in *. by subst.
    + assert (levels A ≠ []) as Ha by (by rewrite Ea).
      assert (levels B ≠ []) as Hb by (by rewrite Eb).
      rewrite Day_assimilate_compatible by done. simpl. rewrite <-Ea, <-Eb. split.
      * intros (Hdd & Hrr & ls & Hls & Hlen & Hk)%Day_loop_Ok; [|done..].
        simpl in *. subst ls. split_and!; try done.
        apply pointwise_merge_below; try done.
        intros k Hlt. rewrite Hlen in Hlt.
        destruct (Hk k Hlt) as (x & y & l & [Hx Hy] & Hl & Hkl). by exists x, y, l.
      * intros (_ & _ & Hdd & Hrr & Hpw).
        destruct (for_each _ _ _) as [day'|e] eqn:E.
        -- f_equal. apply Day_loop_Ok in E as (Hdd' & Hrr' & ls & Hls & Hlen & Hk);
             [|done..].
           simpl in *. subst ls.
           assert (levels day' = levels day) as Hl.
           { apply (pointwise_merge_unique (levels A) (levels B)); [|done].
             apply pointwise_merge_below; try done.
             intros k Hlt. rewrite Hlen in Hlt.
             destruct (Hk k Hlt) as (x & y & l & [Hx Hy] & Hxy & Hkl). by exists x, y, l. }
           destruct day, day'; simpl in *. congruence.
        -- exfalso. apply Day_loop_Raise in E as (k & x & y & _ & [Hx Hy] & Hxy);
             [|done..].
           destruct Hpw as [_ Hk]. destruct (Hk k) as (x' & y' & l & Hx' & Hy' & _ & Hl).
           unfold clamped in *. congruence.
  - split; [|by intros (_ & ? & _)]. unfold Day_assimilate.
    rewrite (bool_decide_eq_true_2 (region A ≠ region B)) by done.
    by rewrite orb_true_r.
  - split; [|by intros (? & _)]. unfold Day_assimilate.
    by rewrite (bool_decide_eq_true_2 (date A ≠ date B)) by done.
Qed.

Lemma pointwise_merge_assoc_l (a b c ab r : list Level) :
  a ≠ [] → b ≠ [] → c ≠ [] →
  pointwise_merge Data_bool a b ab → pointwise_merge Data_bool ab c r →
  ∃ bc, pointwise_merge Data_bool b c bc ∧ pointwise_merge Data_bool a bc r.
Proof.
  intros Ha Hb Hc [Lab Pab] [Lr Pr].
  assert (∀ k, ∃ x y z w l, clamped a k = Some x ∧ clamped b k = Some y ∧
             clamped c k = Some z ∧ clamped r k = Some l ∧
             Level_assimilate Data_bool y z = Ok w ∧
             Level_assimilate Data_bool x w = Ok l) as Hall.
  { intros k. destruct (Pab k) as (x & y & m & Hx & Hy & Hm & Hxy).
    destruct (Pr k) as (m' & z & l & Hm' & Hz & Hl & Hmz).
    assert (m' = m) as -> by congruence.
    destruct (proj1 (Level_assimilate_assoc Data_bool x y z l)) as (w & Hyz & Hxw);
      [by exists m|].
    by exists x, y, z, w, l. }
  assert (0 < length b)%nat as Hlb by (destruct b; [done | simpl; lia]).
  destruct (list_of_pointwise
              (λ k w, ∃ y z, clamped b k = Some y ∧ clamped c k = Some z ∧
                             Level_assimilate Data_bool y z = Ok w)
              (length b `max` length c)) as (bc & Lbc & Pbc).
  { intros k _. destruct (Hall k) as (x & y & z & w & l & ? & ? & ? & ? & ? & ?).
    by exists w, y, z. }
  assert (pointwise_merge Data_bool b c bc) as Hbc.
  { apply pointwise_merge_below; try done.
    intros k Hk. rewrite Lbc in Hk. destruct (Pbc k Hk) as (w & Hw & y & z & ? & ? & ?).
    by exists y, z, w. }
  exists bc. split; [done|]. split; [lia|].
  intros k. destruct (Hall k) as (x & y & z & w & l & Hx & Hy & Hz & Hl & Hyz & Hxw).
  destruct Hbc as [_ Pbc']. destruct (Pbc' k) as (y' & z' & w' & Hy' & Hz' & Hw' & Hyz').
  assert (w' = w) as -> by congruence.
  by exists x, w, l.
Qed.

Lemma pointwise_merge_assoc_r (a b c bc r : list Level) :
  a ≠ [] → b ≠ [] → c ≠ [] →
  pointwise_merge Data_bool b c bc → pointwise_merge Data_bool a bc r →
  ∃ ab, pointwise_merge Data_bool a b ab ∧ pointwise_merge Data_bool ab c r.
Proof.
  intros Ha Hb Hc [Lbc Pbc] [Lr Pr].
  assert (∀ k, ∃ x y z m l, clamped a k = Some x ∧ clamped b k = Some y ∧
             clamped c k = Some z ∧ clamped r k = Some l ∧
             Level_assimilate Data_bool x y = Ok m ∧
             Level_assimilate Data_bool m z = Ok l) as Hall.
  { intros k. destruct (Pbc k) as (y & z & w & Hy & Hz & Hw & Hyz).
    destruct (Pr k) as (x & w' & l & Hx & Hw' & Hl & Hxw).
    assert (w' = w) as -> by congruence.
    destruct (proj2 (Level_assimilate_assoc Data_bool x y z l)) as (m & Hxy & Hmz);
      [by exists w|].
    by exists x, y, z, m, l. }
  assert (0 < length a)%nat as Hla by (destruct a; [done | simpl; lia]).
  destruct (list_of_pointwise
              (λ k m, ∃ x y, clamped a k = Some x ∧ clamped b k = Some y ∧
                             Level_assimilate Data_bool x y = Ok m)
              (length a `max` length b)) as (ab & Lab & Pab).
  { intros k _. destruct (Hall k) as (x & y & z & m & l & ? & ? & ? & ? & ? & ?).
    by exists m, x, y. }
  assert (pointwise_merge Data_bool a b ab) as Hab.
  { apply pointwise_merge_below; try done.
    intros k Hk. rewrite Lab in Hk. destruct (Pab k Hk) as (m & Hm & x & y & ? & ? & ?).
    by exists x, y, m. }
  exists ab. split; [done|]. split; [lia|].
  intros k. destruct (Hall k) as (x & y & z & m & l & Hx & Hy & Hz & Hl & Hxy & Hmz).
  destruct Hab as [_ Pab']. destruct (Pab' k) as (x' & y' & m' & Hx' & Hy' & Hm' & Hxy').
  assert (m' = m) as -> by congruence.
  by exists m, z, l.
Qed.

Lemma merged_bands_nil_r (a : list Level) : merged_bands Data_bool a [] a.
Proof. by destruct a. Qed.

Lemma merged_bands_assoc (a b c r : list Level) :
  (∃ ab, merged_bands Data_bool a b ab ∧ merged_bands Data_bool ab c r) ↔
  (∃ bc, merged_bands Data_bool b c bc ∧ merged_bands Data_bool a bc r).
Proof.
  destruct a as [|a0 a']; [|destruct b as [|b0 b']; [|destruct c as [|c0 c']]].
  - (* a empty *)
    split.
    + intros (ab & -> & Hr). exists r. done.
    + intros (bc & Hbc & ->). exists b. done.
  - (* b empty *)
    split.
    + intros (ab & -> & Hr). exists c. done.
    + intros (bc & -> & Hr). exists (a0 :: a'). done.
  - (* c empty *)
    split.
    + intros (ab & Hab & Hr). exists (b0 :: b'). split; [done|].
      assert (ab ≠ []) as Hne by (by apply (pointwise_merge_nonempty (a0 :: a') (b0 :: b'))).
      destruct ab; [done|]. simpl in Hr. by subst.
    + intros (bc & -> & Hr). exists r. split; [done|]. apply merged_bands_nil_r.
  - (* three non-empty lists *)
    split.
    + intros (ab & Hab & Hr).
      assert (ab ≠ []) as Hne by (by apply (pointwise_merge_nonempty (a0 :: a') (b0 :: b'))).
      destruct ab as [|m0 ab']; [done|].
      destruct (pointwise_merge_assoc_l (a0 :: a') (b0 :: b') (c0 :: c') (m0 :: ab') r)
        as (bc & Hbc & Hr'); try done.
      exists bc. split; [done|].
      assert (bc ≠ []) as Hne' by (by apply (pointwise_merge_nonempty (b0 :: b') (c0 :: c'))).
      by destruct bc.
    + intros (bc & Hbc & Hr).
      assert (bc ≠ []) as Hne by (by apply (pointwise_merge_nonempty (b0 :: b') (c0 :: c'))).
      destruct bc as [|w0 bc']; [done|].
      destruct (pointwise_merge_assoc_r (a0 :: a') (b0 :: b') (c0 :: c') (w0 :: bc') r)
        as (ab & Hab & Hr'); try done.
      exists ab. split; [done|].
      assert (ab ≠ []) as Hne' by (by apply (pointwise_merge_nonempty (a0 :: a') (b0 :: b'))).
      by destruct ab.
Qed.

Lemma Day_bool_merged (A B day : Day) :
  Day_assimilate Data_bool A B = Ok day →
  Day_bool Data_bool day = Day_bool Data_bool A || Day_bool Data_bool B.
Proof.
  intros (_ & _ & _ & _ & Hm)%Day_assimilate_Ok_iff. unfold Day_bool.
  destruct (levels A) as [|a0 a'] eqn:Ea; [|destruct (levels B) as [|b0 b'] eqn:Eb];
    simpl in Hm.
  - by rewrite Hm.
  - by rewrite Hm, orb_false_r.
  - destruct Hm as [Hlen Hk]. apply eq_true_iff_eq.
    rewrite orb_true_iff, !existsb_exists. split.
    + intros (l & Hin & Hl). apply list_elem_of_In, list_elem_of_lookup in Hin as [k Hkl].
      destruct (Hk k) as (x & y & l' & Hx & Hy & Hl' & Hxy).
      rewrite clamped_lt in Hl' by (by eapply lookup_lt_Some). simplify_eq.
      rewrite (Level_bool_merged _ _ _ _ Hxy) in Hl.
      apply orb_true_iff in Hl as [Hl|Hl]; [left; exists x|right; exists y];
        (split; [|done]); apply list_elem_of_In;
        eapply list_elem_of_lookup_2; eassumption.
    + assert (∀ k, ∃ x y l, clamped (a0 :: a') k = Some x ∧ clamped (b0 :: b') k = Some y ∧
                l ∈ levels day ∧ Level_bool Data_bool l
                  = Level_bool Data_bool x || Level_bool Data_bool y) as Hk'.
      { intros k. destruct (Hk k) as (x & y & l & Hx & Hy & Hl & Hxy).
        exists x, y, l. split_and!; try done.
        - eapply list_elem_of_lookup_2; eassumption.
        - by apply Level_bool_merged. }
      intros [(x & Hin & Hx)|(y & Hin & Hy)];
        apply list_elem_of_In, list_elem_of_lookup in Hin as [k Hkx];
        destruct (Hk' k) as (x' & y' & l & Hx' & Hy' & Hl & Hb);
        exists l; (split; [by apply list_elem_of_In|]); rewrite Hb.
      * rewrite clamped_lt in Hx' by (by eapply lookup_lt_Some). simplify_eq.
        by rewrite Hx.
      * rewrite clamped_lt in Hy' by (by eapply lookup_lt_Some). simplify_eq.
        by rewrite Hy, orb_true_r.
Qed.
End DayMerge.

(** X24: merging three day records gives the same record whichever two are
    merged first: [(A + B) + C] succeeds with a result [R] exactly when
    [A + (B + C)] does -- whatever the numbers of bands, with the last band
    of a shorter record paired again, and with records without bands. *)
Theorem Day_assimilate_associative (Data_bool : Data → bool) (A B C R : Day) :
  (∃ AB, Day_assimilate Data_bool A B = Ok AB ∧ Day_assimilate Data_bool AB C = Ok R) ↔
  (∃ BC, Day_assimilate Data_bool B C = Ok BC ∧ Day_assimilate Data_bool A BC = Ok R).
Proof.
  split.
  - intros (AB & (HdAB & HrAB & HdAB' & HrAB' & Hab)%Day_assimilate_Ok_iff
               & (HdC & HrC & HdR & HrR & Hr)%Day_assimilate_Ok_iff).
    destruct (proj1 (merged_bands_assoc Data_bool (levels A) (levels B) (levels C) (levels R)))
      as (bc & Hbc & Hr'); [by exists (levels AB)|].
    exists (mkDay (date B) (region B) bc). split.
    + apply Day_assimilate_Ok_iff. simpl. split_and!; congruence.
    + apply Day_assimilate_Ok_iff. simpl. split_and!; congruence.
  - intros (BC & (HdBC & HrBC & HdBC' & HrBC' & Hbc)%Day_assimilate_Ok_iff
               & (HdA & HrA & HdR & HrR & Hr)%Day_assimilate_Ok_iff).
    destruct (proj2 (merged_bands_assoc Data_bool (levels A) (levels B) (levels C) (levels R)))
      as (ab & Hab & Hr'); [by exists (levels BC)|].
    exists (mkDay (date A) (region A) ab). split.
    + apply Day_assimilate_Ok_iff. simpl. split_and!; congruence.
    + apply Day_assimilate_Ok_iff. simpl. split_and!; congruence.
Qed.

(** X25: a merged day record is present exactly when one of the two records
    is: [bool(A.assimilate(B)) == (bool(A) or bool(B))]. *)
Theorem Day_assimilate_presence (Data_bool : Data → bool) (A B day : Day) :
  Day_assimilate Data_bool A B = Ok day →
  Day_bool Data_bool day = Day_bool Data_bool A || Day_bool Data_bool B.
Proof. apply Day_bool_merged. Qed.

Lemma Day_assimilate_presence_witness :
  ∃ day, Day_assimilate object_bool bandless_day windy_day = Ok day ∧
         Day_bool object_bool day
         = Day_bool object_bool bandless_day || Day_bool object_bool windy_day.
Proof.
  eexists. split; [vm_compute; reflexivity|].
  apply Day_assimilate_presence. vm_compute. reflexivity.
Defined.

(** ** The rows of Timeline.to_frame *)

Section TimelineFrame.
Variable Data_bool : Data → bool.
Variable Timeline_bool : Timeline → bool.
Variables elevation level_index : option Z.

Lemma frame_loops_agree (d : option dt_date) (lvls : list Level)
    (acc : list ((option dt_date * string) * Row)) (dacc : list (string * Row)) :
  (∀ n, od_get acc (d, n) = od_get dacc n) →
  match for_each
          (λ levels_ lvl,
             keep ← level_selected elevation level_index lvl;
             if keep : bool
             then Ok (od_set levels_ (Level_get_name lvl) (level_row Data_bool lvl))
             else Ok levels_)
          lvls dacc with
  | Ok drows =>
      ∃ rows,
        for_each
          (λ levels_ lvl,
             keep ← level_selected elevation level_index lvl;
             if keep : bool
             then Ok (od_set levels_ (d, Level_get_name lvl) (level_row Data_bool lvl))
             else Ok levels_)
          lvls acc = Ok rows ∧
        (∀ n, od_get rows (d, n) = od_get drows n) ∧
        (∀ d' n, d' ≠ d → od_get rows (d', n) = od_get acc (d', n))
  | Raise e =>
      for_each
        (λ levels_ lvl,
           keep ← level_selected elevation level_index lvl;
           if keep : bool
           then Ok (od_set levels_ (d, Level_get_name lvl) (level_row Data_bool lvl))
           else Ok levels_)
        lvls acc = Raise e
  end.
Proof.
  revert acc dacc. induction lvls as [|lvl lvls IH]; intros acc dacc Hacc.
  - simpl. exists acc. done.
  - cbn [for_each].
    destruct (level_selected elevation level_index lvl) as [[|]|e]; [| |done];
      rewrite !bind_Ok.
    + specialize (IH (od_set acc (d, Level_get_name lvl) (level_row Data_bool lvl))
                     (od_set dacc (Level_get_name lvl) (level_row Data_bool lvl))).
      destruct (for_each _ lvls (od_set dacc _ _)) as [drows|e].
      * destruct IH as (rows & Hrows & Hd & Hother).
        { intros n. rewrite !od_get_set, Hacc.
          destruct (decide (Level_get_name lvl = n)) as [->|Hne].
          - by rewrite decide_True.
          - rewrite decide_False; [done|]. by intros [= ?]. }
        exists rows. split_and!; [done..|].
        intros d' n Hd'. rewrite Hother, od_get_set by done.
        rewrite decide_False; [done|]. by intros [= ? ?].
      * apply IH. intros n. rewrite !od_get_set, Hacc.
        destruct (decide (Level_get_name lvl = n)) as [->|Hne].
        -- by rewrite decide_True.
        -- rewrite decide_False; [done|]. by intros [= ?].
    + by apply IH.
Qed.

Lemma frame_loop_Ok (d : option dt_date) (lvls : list Level)
    (acc : list ((option dt_date * string) * Row)) (dacc : list (string * Row))
    (drows : list (string * Row)) :
  for_each
    (λ levels_ lvl,
       keep ← level_selected elevation level_index lvl;
       if keep : bool
       then Ok (od_set levels_ (Level_get_name lvl) (level_row Data_bool lvl))
       else Ok levels_)
    lvls dacc = Ok drows →
  ∃ rows,
    for_each
      (λ levels_ lvl,
         keep ← level_selected elevation level_index lvl;
         if keep : bool
         then Ok (od_set levels_ (d, Level_get_name lvl) (level_row Data_bool lvl))
         else Ok levels_)
      lvls acc = Ok rows.
Proof.
  revert acc dacc. induction lvls as [|lvl lvls IH]; intros acc dacc.
  - by exists acc.
  - cbn [for_each].
    destruct (level_selected elevation level_index lvl) as [[|]|e]; [| |done];
      rewrite !bind_Ok; apply IH.
Qed.

(** A record that is present. *)
Local Abbreviation present := (λ day : Day, Day_bool Data_bool day = true).

Lemma Timeline_frame_loop (days : list Day)
    (acc rows : list ((option dt_date * string) * Row)) :
  for_each
    (λ levels_ day,
       if Day_bool Data_bool day then
         for_each
           (λ levels_ lvl,
              keep ← level_selected elevation level_index lvl;
              if keep : bool then
                Ok (od_set levels_ (date day, Level_get_name lvl) (level_row Data_bool lvl))
              else Ok levels_)
           (levels day) levels_
       else Ok levels_)
    days acc = Ok rows →
  NoDup (date <$> filter present days) →
  (∀ day n, day ∈ days → present day → od_get acc (date day, n) = None) →
  (∀ day, day ∈ days → present day →
     ∃ drows,
       for_each
         (λ levels_ lvl,
            keep ← level_selected elevation level_index lvl;
            if keep : bool
            then Ok (od_set levels_ (Level_get_name lvl) (level_row Data_bool lvl))
            else Ok levels_)
         (levels day) [] = Ok drows ∧
       ∀ n, od_get rows (date day, n) = od_get drows n) ∧
  (∀ d n, (∀ day, day ∈ days → present day → date day ≠ d) →
     od_get rows (d, n) = od_get acc (d, n)).
Proof.
  revert acc. induction days as [|day days IH]; intros acc Hrows Hnd Hacc.
  - simpl in Hrows. injection Hrows as <-. split; [|done].
    intros day Hin. by apply elem_of_nil in Hin.
  - cbn [for_each] in Hrows. rewrite filter_cons in Hnd.
    destruct (Day_bool Data_bool day) eqn:Hday.
    + rewrite decide_True in Hnd by done. rewrite fmap_cons in Hnd.
      apply NoDup_cons in Hnd as [Hnotin Hnd].
      assert (∀ day', day' ∈ days → present day' → date day' ≠ date day) as Hfresh.
      { intros day' Hin Hp Heq. apply Hnotin. rewrite <- Heq.
        apply list_elem_of_fmap. exists day'. split; [done|].
        by apply list_elem_of_filter. }
      pose proof (frame_loops_agree (date day) (levels day) acc []) as Hagree.
      destruct (for_each _ (levels day) []) as [drows|e] eqn:Hd.
      * destruct Hagree as (rows1 & Hrows1 & Hsame & Hother).
        { intros n. apply Hacc; [apply list_elem_of_here | done]. }
        rewrite Hrows1, bind_Ok in Hrows.
        destruct (IH rows1 Hrows Hnd) as [Hdays Hothers].
        { intros day' n Hin Hp. rewrite Hother by by apply Hfresh.
          apply Hacc; [by apply list_elem_of_further | done]. }
        split.
        -- intros day' [->|Hin]%elem_of_cons Hp.
           ++ exists drows. split; [done|]. intros n.
              rewrite Hothers by (intros ???; by apply Hfresh). apply Hsame.
           ++ by apply Hdays.
        -- intros d n Hd'. rewrite Hothers.
           ++ apply Hother. intros ->.
              by apply (Hd' day); [apply list_elem_of_here|done|].
           ++ intros day' Hin Hp. apply Hd'; [by apply list_elem_of_further | done].
      * rewrite Hagree in Hrows; [done|].
        intros n. apply Hacc; [apply list_elem_of_here | done].
    + rewrite decide_False in Hnd by done. rewrite bind_Ok in Hrows.
      destruct (IH acc Hrows Hnd) as [Hdays Hothers].
      { intros day' n Hin Hp. apply Hacc; [by apply list_elem_of_further | done]. }
      split.
      * intros day' [->|Hin]%elem_of_cons Hp; [congruence|]. by apply Hdays.
      * intros d n Hd'. apply Hothers.
        intros day' Hin Hp. apply Hd'; [by apply list_elem_of_further | done].
Qed.

Lemma Timeline_frame_loop_Ok (days : list Day)
    (acc : list ((option dt_date * string) * Row)) :
  (∀ day, day ∈ days → present day →
     ∃ drows,
       for_each
         (λ levels_ lvl,
            keep ← level_selected elevation level_index lvl;
            if keep : bool
            then Ok (od_set levels_ (Level_get_name lvl) (level_row Data_bool lvl))
            else Ok levels_)
         (levels day) [] = Ok drows) →
  ∃ rows,
    for_each
      (λ levels_ day,
         if Day_bool Data_bool day then
           for_each
             (λ levels_ lvl,
                keep ← level_selected elevation level_index lvl;
                if keep : bool then
                  Ok (od_set levels_ (date day, Level_get_name lvl) (level_row Data_bool lvl))
                else Ok levels_)
             (levels day) levels_
         else Ok levels_)
      days acc = Ok rows.
Proof.
  revert acc. induction days as [|day days IH]; intros acc Hdays.
  - by exists acc.
  - cbn [for_each]. destruct (Day_bool Data_bool day) eqn:Hday.
    + destruct (Hdays day) as [drows Hd]; [apply list_elem_of_here | done |].
      destruct (frame_loop_Ok (date day) (levels day) acc [] drows Hd) as [rows1 ->].
      rewrite bind_Ok. apply IH. intros day' Hin. by apply Hdays, list_elem_of_further.
    + rewrite bind_Ok. apply IH. intros day' Hin. by apply Hdays, list_elem_of_further.
Qed.
End TimelineFrame.

(** X26: apart from the check of its arguments, [Timeline.to_frame] agrees
    with [Day.to_frame] of the records it contains.  On a timeline whose
    present records have different dates, and with at most one of the two
    filters given: a call that returns has, under [(day.date, name)] for
    every present record [day], the row that [day.to_frame] has under
    [name], and no row under a date that no present record has; and the call
    returns as soon as [get_region] does and [day.to_frame] returns for
    every present record. *)
Theorem Timeline_to_frame_rows_of_days (Data_bool : Data → bool)
    (Timeline_bool : Timeline → bool) (self : Timeline) (elevation level_index : option Z) :
  NoDup (date <$> filter (λ day, Day_bool Data_bool day = true) (Container_iter self)) →
  elevation = None ∨ level_index = None →
  (∀ name rows,
     Timeline_to_frame Data_bool Timeline_bool self elevation level_index = Ok (name, rows) →
     (∀ day, day ∈ Container_iter self → Day_bool Data_bool day = true →
        ∃ drows, Day_to_frame Data_bool day elevation level_index = Ok drows ∧
                 ∀ n, od_get rows (date day, n) = od_get drows n) ∧
     (∀ d n, (∀ day, day ∈ Container_iter self → Day_bool Data_bool day = true →
                     date day ≠ d) →
             od_get rows (d, n) = None)) ∧
  (∀ name,
     Timeline_get_region Timeline_bool self = Ok name →
     (∀ day, day ∈ Container_iter self → Day_bool Data_bool day = true →
        ∃ drows, Day_to_frame Data_bool day elevation level_index = Ok drows) →
     ∃ rows,
       Timeline_to_frame Data_bool Timeline_bool self elevation level_index
       = Ok (name, rows)).
Proof.
  intros Hnd Hone.
  assert (bool_decide (elevation ≠ None) && bool_decide (level_index ≠ None) = false)
    as Hcheck.
  { destruct Hone as [-> | ->]; [done|]. by rewrite andb_false_r. }
  split.
  - intros name rows Hframe. unfold Timeline_to_frame in Hframe.
    destruct (for_each _ (Container_iter self) []) as [rows'|e] eqn:Hloop; [|done].
    rewrite bind_Ok in Hframe.
    destruct (Timeline_get_region Timeline_bool self) as [name'|e]; [|done].
    rewrite bind_Ok in Hframe. injection Hframe as -> ->.
    destruct (Timeline_frame_loop Data_bool elevation level_index _ _ _ Hloop Hnd)
      as [Hdays Hothers]; [done|].
    split.
    + intros day Hin Hp. destruct (Hdays day Hin Hp) as (drows & Hd & Hget).
      exists drows. split; [|done]. unfold Day_to_frame. by rewrite Hcheck.
    + intros d n Hd. by rewrite Hothers.
  - intros name Hname Hdays. unfold Timeline_to_frame.
    destruct (Timeline_frame_loop_Ok Data_bool elevation level_index
                (Container_iter self) []) as [rows ->].
    { intros day Hin Hp. destruct (Hdays day Hin Hp) as [drows Hd].
      exists drows. unfold Day_to_frame in Hd. by rewrite Hcheck in Hd. }
    exists rows. by rewrite bind_Ok, Hname.
Qed.

Lemma Timeline_to_frame_rows_of_days_witness :
  ∃ rows drows,
    Timeline_to_frame object_bool Container_bool_len lowland_timeline (Some 100) None
      = Ok (Some region_3003, rows) ∧
    Day_to_frame object_bool lowland_day (Some 100) None = Ok drows ∧
    od_get rows (Some sample_date, "0-500") = od_get drows "0-500".
Proof.
  destruct (Timeline_to_frame_rows_of_days object_bool Container_bool_len lowland_timeline
              (Some 100) None) as [Hrows _].
  - vm_compute. apply NoDup_singleton.
  - by right.
  - eexists. 
    destruct (Hrows (Some region_3003) _ ltac:(vm_compute; reflexivity)) as [Hdays _].
    destruct (Hdays lowland_day) as (drows & Hd & Hget);
      [apply list_elem_of_here | reflexivity |].
    exists drows. split_and!; [vm_compute; reflexivity | exact Hd | apply Hget].
Defined.

(** ** The row of a band *)

Section OrderedDictItems.
Context {K V : Type} `{EqDecision K}.

Lemma od_set_fresh (d : list (K * V)) (k : K) (v : V) :
  k ∉ d.*1 → od_set d k v = d ++ [(k, v)].
Proof.
  induction d as [|[k' v'] d IH]; [done|]. csimpl. intros Hk.
  apply not_elem_of_cons in Hk as [Hne Hk].
  rewrite decide_False by done. by rewrite IH.
Qed.

Lemma od_of_items_NoDup (items : list (K * V)) :
  NoDup items.*1 → od_of_items items = items.
Proof.
  unfold od_of_items. change items with ([] ++ items) at 1 3.
  generalize (@nil (K * V)). induction items as [|[k v] items IH]; intros acc Hnd.
  - by rewrite app_nil_r.
  - cbn [foldl fst snd]. rewrite od_set_fresh.
    + rewrite (IH (acc ++ [(k, v)])); rewrite <- (assoc_L (++)); done.
    + rewrite fmap_app in Hnd. apply NoDup_app in Hnd as (_ & Hdisj & _).
      intros Hin. by apply (Hdisj k Hin), list_elem_of_here.
Qed.

Lemma od_get_app (l1 l2 : list (K * V)) (k : K) :
  od_get (l1 ++ l2) k = match od_get l1 k with Some v => Some v | None => od_get l2 k end.
Proof.
  induction l1 as [|[k' v'] l1 IH]; [done|]. simpl. by destruct (decide (k' = k)).
Qed.

Lemma od_get_fresh (d : list (K * V)) (k : K) : k ∉ d.*1 → od_get d k = None.
Proof.
  induction d as [|[k' v'] d IH]; [done|]. csimpl. intros Hk.
  apply not_elem_of_cons in Hk as [Hne Hk].
  rewrite decide_False by done. by apply IH.
Qed.
End OrderedDictItems.

Lemma fmap_bind_list {A B C : Type} (f : B → C) (g : A → list B) (l : list A) :
  f <$> (l ≫= g) = l ≫= (λ x, f <$> g x).
Proof. induction l as [|x l IH]; [done|]. by rewrite !bind_cons, fmap_app, IH. Qed.

Section LevelRow.
Variable Data_bool : Data → bool.

Lemma Level_to_dict_entries (lvl : Level) :
  Level_to_dict Data_bool lvl =
  (λ attr, (attr, if slot_bool Data_bool (getattr lvl attr)
                  then Data_to_dict <$> getattr lvl attr else None))
    <$> WEATHER_ATTRS_values.
Proof. reflexivity. Qed.

Lemma slot_cells_key (lvl : Level) (attr : Attr) (k : Attr * Z) :
  k ∈ (slot_cells Data_bool lvl attr).*1 → k.1 = attr.
Proof.
  unfold slot_cells. destruct (populated Data_bool lvl attr); [|by intros ?%elem_of_nil].
  destruct (getattr lvl attr) as [d|]; [|by intros ?%elem_of_nil].
  rewrite <- list_fmap_compose.
  intros (item & -> & _)%list_elem_of_fmap. done.
Qed.

Lemma slot_cells_NoDup (lvl : Level) (attr : Attr) :
  NoDup (slot_cells Data_bool lvl attr).*1.
Proof.
  unfold slot_cells. destruct (populated Data_bool lvl attr); [|constructor].
  destruct (getattr lvl attr) as [d|]; [|constructor].
  change (NoDup ((λ p : Z, (attr, p)) <$> [0; 5; 25; 50; 75; 95; 100])).
  apply NoDup_fmap_2; [by intros ?? [= ?] | by apply (bool_decide_unpack _)].
Qed.

Lemma level_row_slots (lvl : Level) :
  level_row Data_bool lvl = WEATHER_ATTRS_values ≫= slot_cells Data_bool lvl.
Proof.
  unfold level_row. rewrite Level_to_dict_entries, list_fmap_bind.
  erewrite list_bind_ext; [| |reflexivity].
  - apply od_of_items_NoDup. rewrite fmap_bind_list. apply NoDup_bind.
    + intros a1 a2 k _ _ H1%slot_cells_key H2%slot_cells_key. congruence.
    + intros a _. apply slot_cells_NoDup.
    + by apply (bool_decide_unpack _).
  - intros attr. unfold slot_cells, populated, compose. simpl.
    destruct (getattr lvl attr) as [d|]; simpl; [|done].
    by destruct (Data_bool d).
Qed.

Lemma od_get_keyed (l : list (Z * option Z)) (attr : Attr) (p : Z) :
  od_get ((λ item, ((attr, item.1), item.2)) <$> l) (attr, p) = od_get l p.
Proof.
  induction l as [|[q v] l IH]; [done|].
  csimpl. destruct (decide (q = p)) as [->|Hne].
  - by rewrite decide_True.
  - rewrite decide_False by (by intros [= ?]). apply IH.
Qed.

Lemma od_get_slot_cells (lvl : Level) (attr : Attr) (p : Z) :
  od_get (slot_cells Data_bool lvl attr) (attr, p) =
  if populated Data_bool lvl attr then d ← getattr lvl attr; od_get (Data_to_dict d) p
  else None.
Proof.
  unfold slot_cells. destruct (populated Data_bool lvl attr); [|done].
  destruct (getattr lvl attr) as [d|]; [|done]. apply od_get_keyed.
Qed.

Lemma od_get_slots (lvl : Level) (attrs : list Attr) (attr : Attr) (p : Z) :
  od_get (attrs ≫= slot_cells Data_bool lvl) (attr, p) =
  if decide (attr ∈ attrs) then od_get (slot_cells Data_bool lvl attr) (attr, p) else None.
Proof.
  induction attrs as [|a attrs IH].
  - by rewrite decide_False by apply not_elem_of_nil.
  - rewrite bind_cons, od_get_app, IH. destruct (decide (a = attr)) as [->|Hne].
    + rewrite (decide_True (P := attr ∈ attr :: attrs)) by apply list_elem_of_here.
      destruct (od_get (slot_cells Data_bool lvl attr) (attr, p)); [done|].
      by destruct (decide (attr ∈ attrs)).
    + rewrite (od_get_fresh (slot_cells Data_bool lvl a)).
      * destruct (decide (attr ∈ attrs)) as [Hin|Hnin].
        -- by rewrite decide_True by by apply list_elem_of_further.
        -- rewrite decide_False; [done|]. by intros [?|?]%elem_of_cons.
      * intros Hk%slot_cells_key. by apply Hne.
Qed.

Lemma level_row_present (lvl : Level) :
  list_bool (level_row Data_bool lvl) = Level_bool Data_bool lvl.
Proof.
  rewrite level_row_slots. apply eq_true_iff_eq. rewrite Level_bool_populated.
  split.
  - intros Hrow.
    destruct (WEATHER_ATTRS_values ≫= slot_cells Data_bool lvl) as [|cell cells] eqn:E;
      [done|].
    assert (cell ∈ WEATHER_ATTRS_values ≫= slot_cells Data_bool lvl) as Hin
      by (rewrite E; apply list_elem_of_here).
    apply list_elem_of_bind in Hin as (attr & Hcell & _). exists attr.
    unfold slot_cells in Hcell. destruct (populated Data_bool lvl attr); [done|].
    by apply elem_of_nil in Hcell.
  - intros [attr Hattr].
    assert (∃ d, getattr lvl attr = Some d) as [d Hd].
    { unfold populated, slot_bool in Hattr. destruct (getattr lvl attr); [by eexists|done]. }
    assert (((attr, 0), perc00 d) ∈ WEATHER_ATTRS_values ≫= slot_cells Data_bool lvl) as Hin.
    { apply list_elem_of_bind. exists attr. split.
      - unfold slot_cells. rewrite Hattr, Hd. apply list_elem_of_here.
      - destruct attr; apply (bool_decide_unpack _); done. }
    by destruct (WEATHER_ATTRS_values ≫= slot_cells Data_bool lvl);
      [apply elem_of_nil in Hin|].
Qed.
End LevelRow.

(** X27: the row that [to_frame] makes of a band has, under
    [(attr, percentile)], the percentile of the [Data] in the slot [attr]
    when this slot is populated, and no cell when it is not; the row has a
    cell exactly when the band is present ([Level.__bool__]). *)
Theorem level_row_cells (Data_bool : Data → bool) (lvl : Level) :
  (∀ attr p,
     od_get (level_row Data_bool lvl) (attr, p) =
     if populated Data_bool lvl attr then d ← getattr lvl attr; od_get (Data_to_dict d) p
     else None) ∧
  list_bool (level_row Data_bool lvl) = Level_bool Data_bool lvl.
Proof.
  split; [|apply level_row_present].
  intros attr p. rewrite level_row_slots, od_get_slots, od_get_slot_cells.
  rewrite decide_True; [done|]. destruct attr; apply (bool_decide_unpack _); done.
Qed.
